(** * singstatdata: the search-and-filter workflow

    A shallow embedding of [singstatdata/singstatdata.py]: the resolver
    [get_resource_id], the metadata aggregator [get_overview], the series
    fetcher [get_timeseries] and the session class [timeseries_search] with
    its method [filter_datasets], followed by the properties of the
    specification that concern them.

    Conventions of the embedding.
    - A Python [str] is a [string]; a character is a code point below 256.
    - Arguments whose type the code inspects at run time are values of
      [pyval].
    - A call either returns, raises one of the exceptions of [exn], or leaves
      the fragment of the [re] syntax that [re_compile] covers.
    - The transport [get_json] prints and returns [None] on every failure; its
      answers are arguments of the functions that call it. *)

From Stdlib Require Import ZArith Bool List Ascii String Lia.
From stdpp Require Import base option list sorting gmap strings.

Import ListNotations.
Local Open Scope string_scope.
Local Open Scope list_scope.
Local Open Scope Z_scope.

(** ** Python values, exceptions and results *)

#[local] Set Warnings "-register-all".

Inductive pyval : Type :=
| PyNone
| PyBool (b : bool)
| PyInt (z : Z)
| PyStr (s : string)
| PyList (l : list pyval)
| PyOther.          (* a float, a tuple, a dict, ... *)

Inductive exn : Type :=
| TypeError
| KeyError
| ValueError
| IndexError
| AssertionError
| UnboundLocalError.

Inductive result (A : Type) : Type :=
| Return (a : A)
| Raise (e : exn)
| Unmodelled.       (* a regular expression outside the modelled syntax *)

Arguments Return {A} a.
Arguments Raise {A} e.
Arguments Unmodelled {A}.

#[export] Instance result_ret : MRet result := fun _ a => Return a.

#[export] Instance result_bind : MBind result := fun _ _ k r =>
  match r with
  | Return a => k a
  | Raise e => Raise e
  | Unmodelled => Unmodelled
  end.

#[export] Instance result_fmap : FMap result := fun _ _ f r =>
  match r with
  | Return a => Return (f a)
  | Raise e => Raise e
  | Unmodelled => Unmodelled
  end.

(** [raise_if c e]: [if c: raise e]. *)
Definition raise_if (c : bool) (e : exn) : result unit :=
  if c then Raise e else Return tt.

(** [isinstance(v, str)], [isinstance(v, bool)] and [isinstance(v, int)]
    ([bool] is a subclass of [int]). An exact test [type(v) == ...] is a
    match on the constructor. *)
Definition isinstance_str (v : pyval) : bool :=
  match v with PyStr _ => true | _ => false end.

Definition isinstance_bool (v : pyval) : bool :=
  match v with PyBool _ => true | _ => false end.

Definition isinstance_int (v : pyval) : bool :=
  match v with PyInt _ | PyBool _ => true | _ => false end.

(** The strings of a list whose elements passed [isinstance(_, str)]. *)
Definition str_values (l : list pyval) : list string :=
  omap (fun v => match v with PyStr s => Some s | _ => None end) l.

(** ** Strings: [str.lower], [in], [str.join] *)

Module Str.

(** [c.lower()] for a code point below 256: the ASCII capitals and the
    Latin-1 capitals (all of 0xC0..0xDE but the sign 0xD7) move up by 32. *)
Definition lower_char (c : ascii) : ascii :=
  let n := nat_of_ascii c in
  if ((65 <=? n)%nat && (n <=? 90)%nat)
     || ((192 <=? n)%nat && (n <=? 222)%nat && negb (n =? 215)%nat)
  then ascii_of_nat (n + 32) else c.

Fixpoint lower (s : string) : string :=
  match s with
  | EmptyString => EmptyString
  | String c s' => String (lower_char c) (lower s')
  end.

(** [a in b] on strings: [a] starts at some position of [b]. *)
Fixpoint contains (a b : string) : bool :=
  String.prefix a b ||
  match b with
  | EmptyString => false
  | String _ b' => contains a b'
  end.

(** [sep.join(l)]. *)
Fixpoint join (sep : string) (l : list string) : string :=
  match l with
  | [] => EmptyString
  | [x] => x
  | x :: xs => x +:+ sep +:+ join sep xs
  end.

End Str.

(** ** The fragment of [re] that is modelled

    A pattern is an alternation of sequences of atoms; an atom is a literal
    character or the dot. Every other special character of the [re] syntax
    puts the pattern outside the fragment. *)

Module Re.

Inductive atom : Type :=
| Lit (c : ascii)
| Dot.

Definition branch : Type := list atom.
Definition regex : Type := list branch.

(** The special characters of the [re] syntax: . ^ $ * + ? { } [ ] \ | ( ) *)
Definition special (c : ascii) : bool :=
  existsb (Ascii.eqb c)
    ["."; "^"; "$"; "*"; "+"; "?"; "{"; "}"; "["; "]"; "\"; "|"; "("; ")"]%char.

Definition atom_of (c : ascii) : option atom :=
  if Ascii.eqb c "."%char then Some Dot
  else if special c then None
  else Some (Lit c).

(** [re.compile]: the branches are the stretches between the bars. *)
Fixpoint re_compile (p : string) : option regex :=
  match p with
  | EmptyString => Some [[]]
  | String c p' =>
      match re_compile p' with
      | Some (b :: bs) =>
          if Ascii.eqb c "|"%char then Some ([] :: b :: bs)
          else match atom_of c with
               | Some a => Some ((a :: b) :: bs)
               | None => None
               end
      | _ => None
      end
  end.

(** The dot matches every character but the newline. *)
Definition atom_matches (a : atom) (c : ascii) : bool :=
  match a with
  | Lit c' => Ascii.eqb c' c
  | Dot => negb (Ascii.eqb c "010"%char)
  end.

(** The branch matches a prefix of [s]. *)
Fixpoint match_here (b : branch) (s : string) : bool :=
  match b, s with
  | [], _ => true
  | _ :: _, EmptyString => false
  | a :: b', String c s' => atom_matches a c && match_here b' s'
  end.

(** The branch matches at some position of [s]. *)
Fixpoint match_somewhere (b : branch) (s : string) : bool :=
  match_here b s ||
  match s with
  | EmptyString => false
  | String _ s' => match_somewhere b s'
  end.

(** The truth value of [re.search(p, s)]: a match object is true, [None]
    is false. [None] here: the pattern is outside the fragment. *)
Definition re_search (p s : string) : option bool :=
  match re_compile p with
  | Some r => Some (existsb (fun b => match_somewhere b s) r)
  | None => None
  end.

End Re.

(** ** Resolver *)

(** One record of the directory: [list(dataset.values())[0]] is the
    identifier and [list(dataset.values())[1]] the title. *)
Record DatasetDirectoryEntry : Type := {
  entry_id : Z;
  entry_title : string
}.

(** The value of [json['records']] for the directory, [None] when [get_json]
    returned nothing. *)
Definition directory_json : Type := option (list DatasetDirectoryEntry).

Definition check_keyphrases (keyphrases : pyval) : result unit :=
  match keyphrases with
  | PyNone => Return tt
  | PyStr _ => Return tt
  | PyList l => raise_if (negb (forallb isinstance_str l)) TypeError
  | _ => Raise TypeError
  end.

(** [[list(dataset.values())[0] for dataset in records if cond(dataset)]] *)
Definition ids_where (cond : DatasetDirectoryEntry -> bool)
    (records : list DatasetDirectoryEntry) : list Z :=
  map entry_id (List.filter cond records).

(** The same comprehension when the condition can leave the model. *)
Fixpoint ids_where_opt (cond : DatasetDirectoryEntry -> option bool)
    (records : list DatasetDirectoryEntry) : option (list Z) :=
  match records with
  | [] => Some []
  | d :: ds =>
      match cond d, ids_where_opt cond ds with
      | Some true, Some l => Some (entry_id d :: l)
      | Some false, Some l => Some l
      | _, _ => None
      end
  end.

(** [get_resource_id(keyphrases, match_all)]; the result is [None] or a list
    of identifiers. *)
Definition get_resource_id (json : directory_json)
    (keyphrases match_all : pyval) : result (option (list Z)) :=
  check_keyphrases keyphrases ;;
  raise_if (negb (isinstance_bool match_all)) TypeError ;;
  match json with
  | None => Return None
  | Some [] => Return None
  | Some records =>
      match keyphrases with
      | PyNone => Return (Some (ids_where (fun _ => true) records))
      | PyStr k =>
          Return (Some (ids_where
            (fun d => Str.contains (Str.lower k) (Str.lower (entry_title d)))
            records))
      | PyList l =>
          let keyphrases := str_values l in
          match match_all with
          | PyBool false =>
              let regstr := Str.join "|" (map Str.lower keyphrases) in
              match ids_where_opt
                      (fun d => Re.re_search regstr (Str.lower (entry_title d)))
                      records with
              | Some ids => Return (Some ids)
              | None => Unmodelled
              end
          | _ =>
              Return (Some (ids_where
                (fun d => forallb
                   (fun k => Str.contains (Str.lower k) (Str.lower (entry_title d)))
                   keyphrases)
                records))
          end
      | _ => Return None
      end
  end.

(** ** Metadata aggregator *)

Record VariableDescriptor : Type := {
  variableCode : string;
  variableName : string
}.

(** One record of a metadata document as the service sends it. *)
Record MetadataRecord : Type := {
  md_resourceId : Z;
  md_title : string;
  md_frequency : string;
  md_uom : string;
  md_datasource : string;
  md_footnote : option string;
  md_startPeriod : string;
  md_endPeriod : string;
  md_variables : list VariableDescriptor;
  md_downloadFormats : list string;
  md_termsOfUse : string;
  md_apiTermsOfService : string;
  md_url : string
}.

(** One row of the overview: the record without the four dropped columns. *)
Record OverviewRecord : Type := {
  ov_resourceId : Z;
  ov_title : string;
  ov_frequency : string;
  ov_uom : string;
  ov_datasource : string;
  ov_footnote : option string;
  ov_startPeriod : string;
  ov_endPeriod : string;
  ov_variables : list VariableDescriptor
}.

(** A data frame: its rows in order, each with its index label. *)
Definition DataFrame : Type := list (nat * OverviewRecord).

Definition row_id (r : nat * OverviewRecord) : Z := ov_resourceId r.2.

(** [pd.DataFrame(records)]: a fresh index 0, 1, 2, ... *)
Definition number_rows {A : Type} (rows : list A) : list (nat * A) :=
  combine (seq 0 (length rows)) rows.

(** [df.drop(columns=['downloadFormats', 'termsOfUse', 'apiTermsOfService',
    'url'])] on one row. *)
Definition drop_columns (m : MetadataRecord) : OverviewRecord :=
  {| ov_resourceId := md_resourceId m;
     ov_title := md_title m;
     ov_frequency := md_frequency m;
     ov_uom := md_uom m;
     ov_datasource := md_datasource m;
     ov_footnote := md_footnote m;
     ov_startPeriod := md_startPeriod m;
     ov_endPeriod := md_endPeriod m;
     ov_variables := md_variables m |}.

Definition check_resource_ids (resource_ids : pyval) : result unit :=
  match resource_ids with
  | PyInt _ => Return tt
  | PyList l => raise_if (negb (forallb isinstance_int l)) TypeError
  | _ => Raise TypeError
  end.

(** The order [sort_values('resourceId')] sorts by. For rows of equal
    identifier the library's default quicksort promises no order; the merge
    sort below is one admissible outcome. *)
Definition id_le (r1 r2 : nat * OverviewRecord) : Prop := row_id r1 <= row_id r2.

#[export] Instance id_le_dec : RelDecision id_le.
Proof. intros r1 r2. unfold id_le. apply _. Defined.

Definition sort_values_resourceId (df : DataFrame) : DataFrame :=
  merge_sort id_le df.

(** [df.reset_index(drop=True)] *)
Definition reset_index (df : DataFrame) : DataFrame :=
  number_rows (map snd df).

Section Overview.

(** [get_json] on the metadata address of an identifier: the value of
    [json['records']], [None] when the transport returned nothing. *)
Variable metadata_json : pyval -> option (list MetadataRecord).

(** A frame without rows has no columns either: [drop] and [sort_values]
    then raise [KeyError]. *)
Definition build_metadata_table (df_full : DataFrame) (ID : pyval)
    : result DataFrame :=
  match metadata_json ID with
  | None => Raise TypeError            (* json['records'] on None *)
  | Some [] => Raise KeyError          (* drop: the columns are not there *)
  | Some records =>
      let df := number_rows (map drop_columns records) in
      Return (df_full ++ df)
  end.

Fixpoint build_all (df_full : DataFrame) (ids : list pyval) : result DataFrame :=
  match ids with
  | [] => Return df_full
  | ID :: rest =>
      df_full ← build_metadata_table df_full ID;
      build_all df_full rest
  end.

Definition get_overview (resource_ids : pyval) : result DataFrame :=
  check_resource_ids resource_ids ;;
  df_full ← match resource_ids with
            | PyInt _ => build_metadata_table [] resource_ids
            | PyList l => build_all [] l
            | _ => Return []
            end;
  match df_full with
  | [] => Raise KeyError               (* sort_values: no column resourceId *)
  | _ => Return (reset_index (sort_values_resourceId df_full))
  end.

End Overview.

(** ** Series fetcher *)

(** A pivoted table: the time periods, the (code, name) columns and the
    cells, a missing value being [None]. *)
Record SeriesTable : Type := {
  st_index : list string;
  st_columns : list (string * string);
  st_cells : list (list (option string))
}.

(** The dictionary key an identifier is stored under: [True == 1] and
    [False == 0] as keys. *)
Definition key_of (ID : pyval) : Z :=
  match ID with
  | PyInt z => z
  | PyBool b => Z.b2z b
  | _ => 0
  end.

Section Timeseries.

(** The inner [build_table(ID)] with the [limit] and [offset] of the call:
    the transport and the pivot, which are outside the core. *)
Variable build_table : pyval -> Z -> Z -> result SeriesTable.

Fixpoint fill_dict (limit offset : Z) (timeseries_dict : gmap Z SeriesTable)
    (ids : list pyval) : result (gmap Z SeriesTable) :=
  match ids with
  | [] => Return timeseries_dict
  | ID :: rest =>
      t ← build_table ID limit offset;
      fill_dict limit offset (<[key_of ID := t]> timeseries_dict) rest
  end.

Definition get_timeseries (resource_ids limit offset : pyval)
    : result (gmap Z SeriesTable) :=
  check_resource_ids resource_ids ;;
  match limit, offset with
  | PyInt limit, PyInt offset =>
      match resource_ids with
      | PyInt _ => fill_dict limit offset ∅ [resource_ids]
      | PyList l => fill_dict limit offset ∅ l
      | _ => Return ∅
      end
  | _, _ => Raise TypeError
  end.

End Timeseries.

(** ** Numbers and periods: [str(int)], [str.split], [int(str)] *)

Module Num.

Definition digit_char (d : Z) : ascii := ascii_of_nat (48 + Z.to_nat d).

(** The decimal digits of [n >= 0], most significant first. The fuel is
    the number of binary digits, which is never less than the number of
    decimal ones. *)
Fixpoint digits (fuel : nat) (n : Z) : string :=
  match fuel with
  | O => EmptyString
  | S fuel' =>
      if n <? 10 then String (digit_char n) EmptyString
      else digits fuel' (n / 10) +:+ String (digit_char (n mod 10)) EmptyString
  end.

Definition str_nonneg (n : Z) : string := digits (S (Z.to_nat (Z.log2 n))) n.

(** [str(z)] for an [int]. *)
Definition str_int (z : Z) : string :=
  if z <? 0 then String "-"%char (str_nonneg (- z)) else str_nonneg z.

(** [c.isspace()] for a code point below 256. *)
Definition isspace (c : ascii) : bool :=
  let n := nat_of_ascii c in
  ((9 <=? n)%nat && (n <=? 13)%nat) || ((28 <=? n)%nat && (n <=? 32)%nat)
  || (n =? 133)%nat || (n =? 160)%nat.

(** [s.split()]: the maximal runs of characters that are not spaces;
    [cur] is the run being read. *)
Fixpoint split_from (cur s : string) : list string :=
  match s with
  | EmptyString => if String.eqb cur EmptyString then [] else [cur]
  | String c s' =>
      if isspace c
      then (if String.eqb cur EmptyString then split_from EmptyString s'
            else cur :: split_from EmptyString s')
      else split_from (cur +:+ String c EmptyString) s'
  end.

Definition split (s : string) : list string := split_from EmptyString s.

Definition digit_value (c : ascii) : option Z :=
  let n := nat_of_ascii c in
  if ((48 <=? n)%nat && (n <=? 57)%nat) then Some (Z.of_nat n - 48) else None.

(** Digits with single underscores between them; [after_digit] tells
    whether the character before was a digit. *)
Fixpoint digits_value (acc : Z) (after_digit : bool) (s : string) : option Z :=
  match s with
  | EmptyString => if after_digit then Some acc else None
  | String c s' =>
      match digit_value c with
      | Some d => digits_value (10 * acc + d) true s'
      | None =>
          if Ascii.eqb c "_"%char && after_digit
          then digits_value acc false s'
          else None
      end
  end.

(** [int(tok)] for a string without spaces; [None] is [ValueError]. *)
Definition int_of (tok : string) : option Z :=
  match tok with
  | String "+"%char r => digits_value 0 false r
  | String "-"%char r => Z.opp <$> digits_value 0 false r
  | _ => digits_value 0 false tok
  end.

End Num.

(** ** Session *)

Record Session : Type := {
  resource_ids : list Z;
  overview : DataFrame;
  timeseries : gmap Z SeriesTable
}.

(** The Python object [get_resource_id] returned. *)
Definition ids_value (r : option (list Z)) : pyval :=
  match r with
  | None => PyNone
  | Some l => PyList (map PyInt l)
  end.

(** [timeseries_search.__init__]: the three stages in sequence. Past
    [get_overview] the resolved value is a list. *)
Definition timeseries_search_init
    (json : directory_json)
    (metadata_json : pyval -> option (list MetadataRecord))
    (build_table : pyval -> Z -> Z -> result SeriesTable)
    (keyphrases match_all : pyval) : result Session :=
  ids ← get_resource_id json keyphrases match_all;
  ov ← get_overview metadata_json (ids_value ids);
  ts ← get_timeseries build_table (ids_value ids) (PyInt 10000) (PyInt 0);
  Return {| resource_ids := default [] ids; overview := ov; timeseries := ts |}.

(** What a call of [filter_datasets] leaves behind: the session, the frames
    handed to [display], and the value returned or the exception raised. *)
Record outcome : Type := {
  final : Session;
  displayed : list DataFrame;
  value : result (option (gmap Z SeriesTable))
}.

Definition frequencies : list string :=
  ["all,"; "annual"; "quarterly"; "monthly"; "ad-hoc"; "half-yearly"].

(** The three type checks at the head of [filter_datasets]. Iterating a
    string gives one-character strings; [str(None)] is ["None"]. *)
Definition check_filter_arguments (frequency start_year inplace : pyval)
    : result unit :=
  match frequency with
  | PyStr _ => Return tt
  | PyList l => raise_if (negb (forallb isinstance_str l)) TypeError
  | _ => Raise TypeError
  end ;;
  match start_year with
  | PyNone => raise_if (negb (String.length "None" =? 4)%nat) TypeError
  | PyInt z => raise_if (negb (String.length (Num.str_int z) =? 4)%nat) TypeError
  | _ => Raise TypeError
  end ;;
  raise_if (negb (isinstance_bool inplace)) TypeError.

(** Reading a local name that no statement on the path has assigned. *)
Definition unbound_local {A : Type} : result A := Raise UnboundLocalError.

(** Lines 376 to 390: the assertions and the frequency test. In the string
    branch the name [freq] is read, and only the loop of the list branch
    assigns it. Assertions are executed (the interpreter runs without -O). *)
Definition filter_frequency (ov : DataFrame) (frequency : pyval)
    : result DataFrame :=
  match frequency with
  | PyList l =>
      let frequency := str_values l in
      raise_if (negb (forallb (fun freq => bool_decide (freq ∈ frequencies)) frequency))
        AssertionError ;;
      if negb (bool_decide ("all" ∈ frequency))
      then Return (List.filter
                     (fun r => bool_decide (Str.lower (ov_frequency r.2) ∈ frequency)) ov)
      else Return ov
  | PyStr frequency =>
      freq ← unbound_local;
      raise_if (negb (bool_decide (freq ∈ frequencies))) AssertionError ;;
      if negb (String.eqb frequency "all")
      then Return (List.filter
                     (fun r => String.eqb (Str.lower (ov_frequency r.2)) frequency) ov)
      else Return ov
  | _ => Return ov
  end.

(** [bool(start_year)] for a value that passed the checks. *)
Definition truthy (v : pyval) : bool :=
  match v with
  | PyInt z => negb (z =? 0)
  | PyBool b => b
  | PyStr s => negb (String.eqb s EmptyString)
  | PyList l => match l with [] => false | _ => true end
  | PyNone => false
  | PyOther => true
  end.

(** [int(i[0])] for [i = period.split()]. *)
Definition leading_year (period : string) : result Z :=
  match Num.split period with
  | [] => Raise IndexError
  | tok :: _ =>
      match Num.int_of tok with
      | Some y => Return y
      | None => Raise ValueError
      end
  end.

(** [[int(i[0]) >= start_year for i in df['startPeriod'].str.split()]] *)
Fixpoint year_mask (start_year : Z) (df : DataFrame) : result (list bool) :=
  match df with
  | [] => Return []
  | r :: rest =>
      y ← leading_year (ov_startPeriod r.2);
      mask ← year_mask start_year rest;
      Return ((start_year <=? y) :: mask)
  end.

(** [df[mask]]: the rows whose entry of the mask is true. *)
Definition select_rows (mask : list bool) (df : DataFrame) : DataFrame :=
  map snd (List.filter fst (combine mask df)).

(** Lines 392 to 395. A list of booleans selects rows, but an empty list is
    no boolean mask: [df[[]]] selects no column, and line 397 then finds no
    column [resourceId] and raises [KeyError]; nothing happens in between. *)
Definition filter_start_year (filtered_overview : DataFrame) (start_year : pyval)
    : result DataFrame :=
  if truthy start_year
  then match start_year with
       | PyInt y =>
           mask ← year_mask y filtered_overview;
           match mask with
           | [] => Raise KeyError
           | _ => Return (select_rows mask filtered_overview)
           end
       | _ => Return filtered_overview
       end
  else Return filtered_overview.

(** [df.loc[df['resourceId'].isin(new_ids)]] *)
Definition rows_isin (new_ids : list Z) (df : DataFrame) : DataFrame :=
  List.filter (fun r => bool_decide (row_id r ∈ new_ids)) df.

(** [{ID: timeseries[ID] for ID in ids}]; [None] is [KeyError]. *)
Fixpoint restrict_dict (timeseries : gmap Z SeriesTable) (ids : list Z)
    : option (gmap Z SeriesTable) :=
  match ids with
  | [] => Some ∅
  | ID :: rest =>
      match timeseries !! ID, restrict_dict timeseries rest with
      | Some t, Some d => Some (<[ID := t]> d)
      | _, _ => None
      end
  end.

(** The part of [filter_datasets] that touches no state: the checks and the
    two filters, giving [filtered_overview]. *)
Definition filtered_overview (self : Session)
    (frequency start_year inplace : pyval) : result DataFrame :=
  check_filter_arguments frequency start_year inplace ;;
  filtered_overview ← filter_frequency (overview self) frequency;
  filter_start_year filtered_overview start_year.

(** [self.filter_datasets(frequency, start_year, inplace)]. The in-place
    branch assigns the three attributes one after the other; a [KeyError]
    in the dictionary comprehension leaves the first two assigned. *)
Definition filter_datasets (self : Session)
    (frequency start_year inplace : pyval) : outcome :=
  match filtered_overview self frequency start_year inplace with
  | Raise e => {| final := self; displayed := []; value := Raise e |}
  | Unmodelled => {| final := self; displayed := []; value := Unmodelled |}
  | Return filtered_overview =>
      let new_ids := map row_id filtered_overview in
      match inplace with
      | PyBool true =>
          let self1 :=
            {| resource_ids := new_ids;
               overview := rows_isin new_ids (overview self);
               timeseries := timeseries self |} in
          match restrict_dict (timeseries self1) (resource_ids self1) with
          | Some d =>
              let self2 :=
                {| resource_ids := resource_ids self1;
                   overview := overview self1;
                   timeseries := d |} in
              {| final := self2;
                 displayed := [rows_isin new_ids (overview self2)];
                 value := Return None |}
          | None =>
              {| final := self1; displayed := []; value := Raise KeyError |}
          end
      | _ =>
          let shown := rows_isin new_ids (overview self) in
          match restrict_dict (timeseries self) new_ids with
          | Some d =>
              {| final := self; displayed := [shown]; value := Return (Some d) |}
          | None =>
              {| final := self; displayed := [shown]; value := Raise KeyError |}
          end
      end
  end.

(** ** Inputs used in the examples *)

(** The directory of the end-to-end scenario. *)
Definition scenario_directory : list DatasetDirectoryEntry :=
  [ {| entry_id := 1; entry_title := "Property Price Index" |};
    {| entry_id := 2; entry_title := "Office Rental Index" |};
    {| entry_id := 3; entry_title := "Food Price Index" |} ].

(** ** The resolver in the words of the specification *)

(** The title contains the keyphrase, case-insensitively, as a substring. *)
Definition title_contains (k : string) (d : DatasetDirectoryEntry) : bool :=
  Str.contains (Str.lower k) (Str.lower (entry_title d)).

(** The identifiers, in directory order, whose title contains at least one
    of the keyphrases. *)
Definition ids_matching_any (ks : list string)
    (dir : list DatasetDirectoryEntry) : list Z :=
  ids_where (fun d => existsb (fun k => title_contains k d) ks) dir.

(** The identifiers, in directory order, whose title contains every
    keyphrase. *)
Definition ids_matching_all (ks : list string)
    (dir : list DatasetDirectoryEntry) : list Z :=
  ids_where (fun d => forallb (fun k => title_contains k d) ks) dir.

(** A list of keyphrase strings as the argument of the call. *)
Definition keyphrase_list (ks : list string) : pyval := PyList (map PyStr ks).

(** A keyphrase without any special character of the [re] syntax. *)
Definition plain (k : string) : bool :=
  forallb (fun c => negb (Re.special c)) (list_ascii_of_string k).

(** The branch that reads a plain keyphrase character by character. *)
Definition lits (k : string) : Re.branch := map Re.Lit (list_ascii_of_string k).

(** [len(r)] for a returned list. *)
Definition count_ids (r : result (option (list Z))) : option Z :=
  match r with
  | Return (Some l) => Some (Z.of_nat (length l))
  | _ => None
  end.

(** Inclusion-exclusion as the specification states it, for keyphrase sets
    [A] and [B] given as lists and their union as the concatenation. *)
Definition inclusion_exclusion (dir : list DatasetDirectoryEntry)
    (A B : list string) : Prop :=
  exists n_any n_A n_B n_all : Z,
    count_ids (get_resource_id (Some dir) (keyphrase_list (A ++ B)) (PyBool false))
      = Some n_any /\
    count_ids (get_resource_id (Some dir) (keyphrase_list A) (PyBool false))
      = Some n_A /\
    count_ids (get_resource_id (Some dir) (keyphrase_list B) (PyBool false))
      = Some n_B /\
    count_ids (get_resource_id (Some dir) (keyphrase_list (A ++ B)) (PyBool true))
      = Some n_all /\
    n_any = n_A + n_B - n_all.

(** A directory with one title that holds the letters n, o, t in a row. *)
Definition notes_directory : list DatasetDirectoryEntry :=
  [ {| entry_id := 1; entry_title := "Number Of Notes In Circulation" |};
    {| entry_id := 2; entry_title := "Retail Sales Index" |} ].

(** ** Sample transports *)

(** A metadata record with the given identifier, frequency and start
    period. *)
Definition sample_metadata (id : Z) (freq period : string) : MetadataRecord :=
  {| md_resourceId := id;
     md_title := "Sample";
     md_frequency := freq;
     md_uom := "Index";
     md_datasource := "SOURCE";
     md_footnote := None;
     md_startPeriod := period;
     md_endPeriod := "2020";
     md_variables := [];
     md_downloadFormats := [];
     md_termsOfUse := "";
     md_apiTermsOfService := "";
     md_url := "" |}.

(** A metadata service that knows every identifier. *)
Definition sample_metadata_json (ID : pyval) : option (list MetadataRecord) :=
  match ID with
  | PyInt id => Some [sample_metadata id "Annual" "2012"]
  | _ => None
  end.

Definition sample_table : SeriesTable :=
  {| st_index := ["2012"]; st_columns := [("M1", "Total")]; st_cells := [[Some "1.0"]] |}.

Definition sample_build_table (ID : pyval) (limit offset : Z) : result SeriesTable :=
  Return sample_table.

(** Every identifier of [ids] has a metadata document of exactly one
    record, and the record carries that identifier. *)
Definition one_record_each (metadata_json : pyval -> option (list MetadataRecord))
    (ids : list Z) : Prop :=
  forall id, In id ids ->
    exists m, metadata_json (PyInt id) = Some [m] /\ md_resourceId m = id.

(** ** A sample session *)

Definition sample_row (label : nat) (id : Z) (freq period : string)
    : nat * OverviewRecord :=
  (label, drop_columns (sample_metadata id freq period)).

(** Three datasets: two quarterly ones starting in 1975 and in 2005, and an
    annual one starting in 2012. *)
Definition sample_session : Session :=
  {| resource_ids := [1; 2; 3];
     overview := [ sample_row 0 1 "Quarterly" "1975 1Q";
                   sample_row 1 2 "Annual" "2012";
                   sample_row 2 3 "Quarterly" "2005 1Q" ];
     timeseries := <[1 := sample_table]> (<[2 := sample_table]>
                     (<[3 := sample_table]> ∅)) |}.

(** ** The filter in the words of the specification *)

(** The recognised values of the specification. *)
Definition spec_frequencies : list string :=
  ["all"; "annual"; "quarterly"; "monthly"; "ad-hoc"; "half-yearly"].

(** The recognised values that name one frequency. *)
Definition named_frequencies : list string :=
  ["annual"; "quarterly"; "monthly"; "ad-hoc"; "half-yearly"].

(** The strings of a frequency argument: the string itself or the elements
    of the list. *)
Definition frequency_values (frequency : pyval) : list string :=
  match frequency with
  | PyStr s => [s]
  | PyList l => str_values l
  | _ => []
  end.

(** The call got past the checks of its arguments: it raised none of the
    exceptions that lines 367 to 386 raise. *)
Definition validation_passes (o : outcome) : Prop :=
  value o <> Raise TypeError /\
  value o <> Raise AssertionError /\
  value o <> Raise UnboundLocalError.

(** The call raised [e] before any filtering: the session is as it was and
    nothing was displayed. *)
Definition rejected_with (e : exn) (self : Session) (o : outcome) : Prop :=
  o = {| final := self; displayed := []; value := Raise e |}.

(** The validation of the frequency as the specification states it, the
    other arguments being [start_year=None] and [inplace=False]. *)
Definition frequency_validation_as_stated (self : Session) (frequency : pyval)
    : Prop :=
  let o := filter_datasets self frequency PyNone (PyBool false) in
  (Forall (fun v => Str.lower v ∈ spec_frequencies) (frequency_values frequency)
     -> validation_passes o) /\
  (Exists (fun v => Str.lower v ∉ spec_frequencies) (frequency_values frequency)
     -> rejected_with TypeError self o).

(** The check of [start_year] (line 370) accepts the value. *)
Definition start_year_accepted (start_year : pyval) : Prop :=
  check_filter_arguments (PyList []) start_year (PyBool false) = Return tt.

(** The row passes the test of line 393 for the year [y]. *)
Definition year_ok (y : Z) (r : nat * OverviewRecord) : bool :=
  match leading_year (ov_startPeriod r.2) with
  | Return v => y <=? v
  | _ => false
  end.

(** ** Further notions for the resolver *)


(** The keyphrases with every string in lower case. *)
Definition lower_keyphrases (keyphrases : pyval) : pyval :=
  match keyphrases with
  | PyStr k => PyStr (Str.lower k)
  | PyList l =>
      PyList (map (fun v => match v with PyStr k => PyStr (Str.lower k) | _ => v end) l)
  | _ => keyphrases
  end.

(** The directory with every title in lower case. *)
Definition lower_title (d : DatasetDirectoryEntry) : DatasetDirectoryEntry :=
  {| entry_id := entry_id d; entry_title := Str.lower (entry_title d) |}.

Definition lower_titles (json : directory_json) : directory_json :=
  map lower_title <$> json.

(** ** Further notions for the aggregator and the fetcher *)

(** The identifiers a call walks through: the integer itself or the
    elements of the list. *)
Definition requested (resource_ids : pyval) : list pyval :=
  match resource_ids with
  | PyInt _ => [resource_ids]
  | PyList l => l
  | _ => []
  end.

(** The rows the metadata document of one identifier contributes. *)
Definition fetched_rows (metadata_json : pyval -> option (list MetadataRecord))
    (ID : pyval) : list OverviewRecord :=
  map drop_columns (default [] (metadata_json ID)).

(** ** Further notions for the session *)


(** The rows of a frame whose frequency, in lower case, is in the list. *)
Definition rows_of_frequency (fl : list string) (df : DataFrame) : DataFrame :=
  List.filter (fun r => bool_decide (Str.lower (ov_frequency r.2) ∈ fl)) df.

(** The three collections of a session name the same datasets: the
    identifiers are those of the rows of the overview, and they are the keys
    of the series. *)
Definition session_consistent (s : Session) : Prop :=
  (forall id, id ∈ resource_ids s <-> id ∈ map row_id (overview s)) /\
  dom (timeseries s) = list_to_set (resource_ids s).

(** A session whose series lack dataset 3. *)
Definition stale_session : Session :=
  {| resource_ids := resource_ids sample_session;
     overview := overview sample_session;
     timeseries := <[1 := sample_table]> (<[2 := sample_table]> ∅) |}.

(** Every row of the frame has a start period that begins with a number. *)
Definition periods_readable (df : DataFrame) : Prop :=
  Forall (fun r => exists y, leading_year (ov_startPeriod r.2) = Return y) df.

(** One in-place call with a list of frequencies and no start year. *)
Definition filter_in_place (fl : list string) (s : Session) : Session :=
  final (filter_datasets s (PyList (map PyStr fl)) PyNone (PyBool true)).

(** * Properties *)

(** ** The scenario of the specification *)

Example resolve_price :
  get_resource_id (Some scenario_directory) (PyStr "price") (PyBool false)
  = Return (Some [1; 3]).
Proof. reflexivity. Qed.

Example resolve_food_office :
  get_resource_id (Some scenario_directory)
    (PyList [PyStr "food"; PyStr "office"]) (PyBool false)
  = Return (Some [2; 3]).
Proof. reflexivity. Qed.

Example resolve_food_price :
  get_resource_id (Some scenario_directory)
    (PyList [PyStr "food"; PyStr "price"]) (PyBool true)
  = Return (Some [3]).
Proof. reflexivity. Qed.

Example resolve_case_insensitive :
  get_resource_id (Some scenario_directory) (PyStr "PRicE") (PyBool false)
  = get_resource_id (Some scenario_directory) (PyStr "price") (PyBool false).
Proof. reflexivity. Qed.

Example str_int_samples :
  Num.str_int 2000 = "2000" /\ Num.str_int (-100) = "-100" /\
  Num.str_int 0 = "0" /\ Num.str_int 12345 = "12345".
Proof. repeat split; reflexivity. Qed.

Example leading_year_samples :
  leading_year "1975 1Q" = Return 1975 /\ leading_year "2012" = Return 2012 /\
  leading_year "2020 Jan" = Return 2020 /\ leading_year "" = Raise IndexError /\
  leading_year "Jan 2020" = Raise ValueError.
Proof. repeat split; reflexivity. Qed.

(** ** Resolver: the regular expression against the substring test *)

Section Matching.

Implicit Types (a k t : string) (ks : list string).

Lemma match_here_lits a (b : string) : Re.match_here (lits a) b = String.prefix a b.
Proof.
  revert a. induction b as [|c b IH]; intros [|c' a]; simpl; try reflexivity.
  destruct (ascii_dec c' c) as [->|Hne].
  - rewrite Ascii.eqb_refl. simpl. apply IH.
  - apply Ascii.eqb_neq in Hne. rewrite Hne. reflexivity.
Qed.

Lemma match_somewhere_lits a (b : string) : Re.match_somewhere (lits a) b = Str.contains a b.
Proof.
  induction b as [|c b IH]; simpl.
  - rewrite match_here_lits. reflexivity.
  - rewrite match_here_lits, IH. reflexivity.
Qed.

Lemma match_somewhere_nil t : Re.match_somewhere [] t = true.
Proof. destruct t; reflexivity. Qed.

Lemma append_cons c k p : String c k +:+ p = String c (k +:+ p).
Proof. reflexivity. Qed.

Lemma append_empty k : k +:+ EmptyString = k.
Proof.
  induction k as [|c k IH]; [reflexivity|]. rewrite append_cons. now f_equal.
Qed.

(** A plain stretch in front of a pattern lengthens its first branch. *)
Lemma re_compile_plain_app k p b bs :
  plain k = true ->
  Re.re_compile p = Some (b :: bs) ->
  Re.re_compile (k +:+ p) = Some ((lits k ++ b) :: bs).
Proof.
  intros Hk Hp. induction k as [|c k IH].
  - exact Hp.
  - unfold plain in Hk. simpl in Hk. apply andb_true_iff in Hk as [Hc Hk].
    rewrite append_cons. simpl. rewrite (IH Hk). apply negb_true_iff in Hc.
    assert (Hbar : Ascii.eqb c "|"%char = false).
    { destruct (Ascii.eqb_spec c "|"%char) as [->|]; [discriminate Hc | reflexivity]. }
    assert (Hdot : Ascii.eqb c "."%char = false).
    { destruct (Ascii.eqb_spec c "."%char) as [->|]; [discriminate Hc | reflexivity]. }
    rewrite Hbar. unfold Re.atom_of. rewrite Hdot, Hc. reflexivity.
Qed.

Lemma re_compile_plain k : plain k = true -> Re.re_compile k = Some [lits k].
Proof.
  intros Hk.
  rewrite <- (append_empty k) at 1.
  rewrite (re_compile_plain_app k EmptyString [] [] Hk eq_refl), app_nil_r.
  reflexivity.
Qed.

Lemma re_compile_bar p b bs :
  Re.re_compile p = Some (b :: bs) ->
  Re.re_compile (String "|"%char p) = Some ([] :: b :: bs).
Proof. intros Hp. simpl. rewrite Hp. reflexivity. Qed.

(** The joined pattern of plain keyphrases has one literal branch each. *)
Lemma re_compile_join k ks :
  Forall (fun k => plain k = true) (k :: ks) ->
  Re.re_compile (Str.join "|" (k :: ks)) = Some (map lits (k :: ks)).
Proof.
  revert k. induction ks as [|k' ks IH]; intros k Hall.
  - simpl. apply re_compile_plain. now inversion Hall.
  - inversion Hall as [|? ? Hk Hrest]; subst.
    change (Str.join "|" (k :: k' :: ks))
      with (k +:+ String "|"%char (Str.join "|" (k' :: ks))).
    assert (Hbar : Re.re_compile (String "|"%char (Str.join "|" (k' :: ks)))
                   = Some ([] :: map lits (k' :: ks))).
    { apply re_compile_bar, IH, Hrest. }
    rewrite (re_compile_plain_app _ _ _ _ Hk Hbar), app_nil_r. reflexivity.
Qed.

Lemma special_lower_char c : Re.special (Str.lower_char c) = Re.special c.
Proof. destruct c as [[] [] [] [] [] [] [] []]; reflexivity. Qed.

Lemma plain_lower k : plain (Str.lower k) = plain k.
Proof.
  unfold plain. induction k as [|c k IH]; simpl; [reflexivity|].
  rewrite special_lower_char. f_equal. exact IH.
Qed.

(** On plain keyphrases the search is the disjunction of substring tests. *)
Lemma re_search_join k ks t :
  Forall (fun k => plain k = true) (k :: ks) ->
  Re.re_search (Str.join "|" (map Str.lower (k :: ks))) t
  = Some (existsb (fun k => Str.contains (Str.lower k) t) (k :: ks)).
Proof.
  intros Hall. unfold Re.re_search.
  change (map Str.lower (k :: ks)) with (Str.lower k :: map Str.lower ks).
  rewrite re_compile_join.
  - f_equal. change (Str.lower k :: map Str.lower ks) with (map Str.lower (k :: ks)).
    generalize (k :: ks). intros l. induction l as [|x l IH]; simpl; [reflexivity|].
    rewrite match_somewhere_lits. f_equal. exact IH.
  - change (Str.lower k :: map Str.lower ks) with (map Str.lower (k :: ks)).
    apply Forall_map. eapply Forall_impl; [exact Hall|].
    intros x Hx. simpl. now rewrite plain_lower.
Qed.

Lemma ids_where_opt_total f cond dir :
  (forall d, f d = Some (cond d)) ->
  ids_where_opt f dir = Some (ids_where cond dir).
Proof.
  intros Hf. unfold ids_where. induction dir as [|d dir IH]; simpl; [reflexivity|].
  rewrite Hf, IH. destruct (cond d); reflexivity.
Qed.

Lemma ids_where_ext (f g : DatasetDirectoryEntry -> bool) dir :
  (forall d, f d = g d) -> ids_where f dir = ids_where g dir.
Proof.
  intros Hfg. unfold ids_where. induction dir as [|d dir IH]; simpl; [reflexivity|].
  rewrite Hfg. destruct (g d); simpl; now rewrite IH.
Qed.

Lemma ids_where_true dir : ids_where (fun _ => true) dir = map entry_id dir.
Proof.
  unfold ids_where. induction dir as [|d dir IH]; simpl; [reflexivity|].
  now rewrite IH.
Qed.

Lemma str_values_keyphrases ks : str_values (map PyStr ks) = ks.
Proof.
  unfold str_values. induction ks as [|k ks IH]; [reflexivity|].
  cbn. f_equal. exact IH.
Qed.

Lemma forallb_isinstance_str ks : forallb isinstance_str (map PyStr ks) = true.
Proof. induction ks as [|k ks IH]; simpl; [reflexivity | exact IH]. Qed.

(** With [match_all=True] the call is the conjunction of substring tests,
    whatever the keyphrases. *)
Lemma get_resource_id_all d dir ks :
  get_resource_id (Some (d :: dir)) (keyphrase_list ks) (PyBool true)
  = Return (Some (ids_matching_all ks (d :: dir))).
Proof.
  unfold get_resource_id, keyphrase_list, check_keyphrases.
  rewrite forallb_isinstance_str, str_values_keyphrases. reflexivity.
Qed.

(** With [match_all=False] and plain keyphrases the call is the
    disjunction of substring tests. *)
Lemma get_resource_id_any_plain d dir k ks :
  Forall (fun k => plain k = true) (k :: ks) ->
  get_resource_id (Some (d :: dir)) (keyphrase_list (k :: ks)) (PyBool false)
  = Return (Some (ids_matching_any (k :: ks) (d :: dir))).
Proof.
  intros Hall.
  unfold get_resource_id, keyphrase_list, check_keyphrases.
  rewrite forallb_isinstance_str, str_values_keyphrases.
  cbn [negb raise_if mbind result_bind isinstance_bool].
  rewrite (ids_where_opt_total _
             (fun d => existsb (fun k => title_contains k d) (k :: ks))).
  - reflexivity.
  - intros e. now rewrite re_search_join.
Qed.

End Matching.

(** ** Resolver: the claims *)

(** C1. With [match_all=False] the list branch hands the joined keyphrases
    to [re.search] unescaped, so a keyphrase is read as a pattern and not as
    a substring: for the keyphrase "no." the call returns identifier 1,
    whose title holds "not" but nowhere "no.", while the identifiers whose
    title contains the keyphrase as a substring are none. *)
Theorem C1_pattern_instead_of_substring :
  get_resource_id (Some notes_directory) (keyphrase_list ["no."]) (PyBool false)
    = Return (Some [1]) /\
  ids_matching_any ["no."] notes_directory = [] /\
  get_resource_id (Some notes_directory) (keyphrase_list ["no."]) (PyBool true)
    = Return (Some []).
Proof. repeat split; reflexivity. Qed.

(** A keyphrase with a special character outside the modelled syntax, such
    as an opening parenthesis, leaves the model; the substring branches
    accept it. *)
Example parenthesis_keyphrase :
  get_resource_id (Some notes_directory) (keyphrase_list ["(sa)"]) (PyBool false)
    = Unmodelled /\
  get_resource_id (Some notes_directory) (keyphrase_list ["(sa)"]) (PyBool true)
    = Return (Some []).
Proof. split; reflexivity. Qed.

Lemma count_or_and {A : Type} (f g : A -> bool) (l : list A) :
  (length (List.filter (fun x => f x || g x) l)
   + length (List.filter (fun x => f x && g x) l)
   = length (List.filter f l) + length (List.filter g l))%nat.
Proof.
  induction l as [|x l IH]; simpl; [reflexivity|].
  destruct (f x), (g x); simpl; lia.
Qed.

Lemma length_ids_where cond dir :
  length (ids_where cond dir) = length (List.filter cond dir).
Proof. unfold ids_where. apply length_map. Qed.

(** C3, counterexample. For the sets {food, office} and {price} over the
    directory of the scenario the four calls return 3, 2, 2 and 0
    identifiers, and 3 is not 2 + 2 - 0. *)
Lemma C3_counterexample :
  ~ inclusion_exclusion scenario_directory ["food"; "office"] ["price"].
Proof.
  intros (n_any & n_A & n_B & n_all & Hany & HA & HB & Hall & Heq).
  vm_compute in Hany, HA, HB, Hall.
  injection Hany as <-. injection HA as <-. injection HB as <-.
  injection Hall as <-. discriminate Heq.
Qed.

(** C3, amended. For two single keyphrases [a] and [b] without special
    characters of the [re] syntax and a directory with at least one entry,
    the number of identifiers returned for [[a, b]] with [match_all=False]
    is the number returned for [a] plus the number returned for [b] minus
    the number returned for [[a, b]] with [match_all=True]; and the call on
    the bare string [a] returns what the call on the list [[a]] returns. *)
Theorem C3_inclusion_exclusion_single
    (d : DatasetDirectoryEntry) (dir : list DatasetDirectoryEntry)
    (a b : string) :
  plain a = true -> plain b = true ->
  inclusion_exclusion (d :: dir) [a] [b] /\
  get_resource_id (Some (d :: dir)) (PyStr a) (PyBool false)
  = get_resource_id (Some (d :: dir)) (keyphrase_list [a]) (PyBool false).
Proof.
  intros Ha Hb. split.
  - unfold inclusion_exclusion. change ([a] ++ [b]) with [a; b].
    rewrite !get_resource_id_any_plain, get_resource_id_all
      by (repeat constructor; assumption).
    do 4 eexists. repeat (split; [reflexivity|]).
    unfold ids_matching_any, ids_matching_all. rewrite !length_ids_where.
    pose proof (count_or_and (title_contains a) (title_contains b) (d :: dir)) as H.
    rewrite (filter_ext (fun x => existsb (fun k => title_contains k x) [a; b])
               (fun x => title_contains a x || title_contains b x))
      by (intros x; simpl; now rewrite orb_false_r).
    rewrite (filter_ext (fun x => forallb (fun k => title_contains k x) [a; b])
               (fun x => title_contains a x && title_contains b x))
      by (intros x; simpl; now rewrite andb_true_r).
    rewrite (filter_ext (fun x => existsb (fun k => title_contains k x) [a])
               (title_contains a))
      by (intros x; simpl; now rewrite orb_false_r).
    rewrite (filter_ext (fun x => existsb (fun k => title_contains k x) [b])
               (title_contains b))
      by (intros x; simpl; now rewrite orb_false_r).
    lia.
  - rewrite get_resource_id_any_plain by (repeat constructor; assumption).
    unfold ids_matching_any. cbn -[ids_where].
    f_equal. f_equal. apply ids_where_ext.
    intros x. simpl. now rewrite orb_false_r.
Qed.

Lemma C3_inclusion_exclusion_single_witness :
  plain "food" = true /\ plain "price" = true /\
  inclusion_exclusion scenario_directory ["food"] ["price"].
Proof.
  split; [reflexivity|]. split; [reflexivity|].
  apply (C3_inclusion_exclusion_single
           {| entry_id := 1; entry_title := "Property Price Index" |}
           [ {| entry_id := 2; entry_title := "Office Rental Index" |};
             {| entry_id := 3; entry_title := "Food Price Index" |} ]
           "food" "price"); reflexivity.
Defined.

(** C9. For a directory with at least one entry and the empty list of
    keyphrases the call returns every identifier of the directory, in
    directory order, for [match_all=False] and for [match_all=True]. *)
Theorem C9_empty_list_returns_all
    (d : DatasetDirectoryEntry) (dir : list DatasetDirectoryEntry)
    (match_all : bool) :
  get_resource_id (Some (d :: dir)) (PyList []) (PyBool match_all)
  = Return (Some (map entry_id (d :: dir))).
Proof.
  destruct match_all.
  - change (PyList []) with (keyphrase_list []).
    rewrite get_resource_id_all. unfold ids_matching_all.
    rewrite <- ids_where_true. reflexivity.
  - unfold get_resource_id. cbn -[ids_where_opt].
    rewrite (ids_where_opt_total _ (fun _ => true)).
    + now rewrite ids_where_true.
    + intros e. unfold Re.re_search. simpl.
      now rewrite match_somewhere_nil.
Qed.

(** ** Session construction *)

(** C10. When the directory cannot be fetched or is empty, the resolver
    yields no list, the overview step rejects the value it is handed with a
    [TypeError], and the construction of the session raises [TypeError]. *)
Theorem C10_construction_fails_without_directory
    (json : directory_json)
    (metadata_json : pyval -> option (list MetadataRecord))
    (build_table : pyval -> Z -> Z -> result SeriesTable)
    (keyphrases match_all : pyval) :
  json = None \/ json = Some [] ->
  (forall ids, get_resource_id json keyphrases match_all = Return ids -> ids = None) /\
  get_overview metadata_json (ids_value None) = Raise TypeError /\
  timeseries_search_init json metadata_json build_table keyphrases match_all
  = Raise TypeError.
Proof.
  intros Hjson.
  assert (Hres : get_resource_id json keyphrases match_all = Return None
                 \/ get_resource_id json keyphrases match_all = Raise TypeError).
  { unfold get_resource_id, check_keyphrases.
    destruct keyphrases as [| | |k|l|]; try (right; reflexivity);
      try destruct (forallb isinstance_str l); simpl;
      try (right; reflexivity);
      destruct match_all; simpl; try (right; reflexivity);
      destruct Hjson as [-> | ->]; left; reflexivity. }
  split; [|split].
  - intros ids Hids. destruct Hres as [H|H]; rewrite H in Hids; congruence.
  - reflexivity.
  - unfold timeseries_search_init.
    destruct Hres as [-> | ->]; reflexivity.
Qed.

Lemma C10_construction_fails_without_directory_witness :
  ((None : directory_json) = None \/ (None : directory_json) = Some []) /\
  timeseries_search_init None sample_metadata_json sample_build_table
    (PyStr "price") (PyBool false) = Raise TypeError.
Proof.
  split; [left; reflexivity|].
  apply (C10_construction_fails_without_directory None sample_metadata_json
           sample_build_table (PyStr "price") (PyBool false)).
  left; reflexivity.
Defined.

(** ** Metadata aggregator *)

#[export] Instance id_le_total : Total id_le.
Proof. intros r1 r2. unfold id_le. lia. Qed.

#[export] Instance id_le_trans : Transitive id_le.
Proof. intros r1 r2 r3. unfold id_le. lia. Qed.

Section NumberRows.

Context {A : Type}.
Implicit Types rows : list A.

Lemma length_number_rows rows : length (number_rows rows) = length rows.
Proof.
  unfold number_rows. rewrite length_combine, length_seq. lia.
Qed.

Lemma labels_number_rows rows :
  map fst (number_rows rows) = seq 0 (length rows).
Proof.
  unfold number_rows. generalize 0%nat.
  induction rows as [|x rows IH]; intros n; simpl; [reflexivity|].
  now rewrite IH.
Qed.

Lemma data_number_rows rows : map snd (number_rows rows) = rows.
Proof.
  unfold number_rows. generalize 0%nat.
  induction rows as [|x rows IH]; intros n; simpl; [reflexivity|].
  now rewrite IH.
Qed.

End NumberRows.

Section OverviewFacts.

Variable metadata_json : pyval -> option (list MetadataRecord).



(** C8. The overview of the empty sequence of identifiers is not a table
    without rows: the frame that was never filled has no column
    [resourceId] to sort by, and the call raises [KeyError]. *)
Theorem C8_overview_of_no_identifier :
  one_record_each metadata_json [] /\ NoDup ([] : list Z) /\
  get_overview metadata_json (PyList (map PyInt [])) = Raise KeyError.
Proof.
  split; [|split].
  - intros id [].
  - constructor.
  - reflexivity.
Qed.

End OverviewFacts.

(** A search that matches no title resolves to the empty list, and the
    construction of the session then fails in the overview step. *)
Example construction_without_match :
  get_resource_id (Some scenario_directory) (PyStr "zzz") (PyBool false)
    = Return (Some []) /\
  timeseries_search_init (Some scenario_directory) sample_metadata_json
    sample_build_table (PyStr "zzz") (PyBool false) = Raise KeyError.
Proof. split; reflexivity. Qed.

Example overview_sample :
  map (fun r => (r.1, row_id r))
    <$> get_overview sample_metadata_json (PyList [PyInt 17; PyInt 3; PyInt 9])
  = Return [(0%nat, 3); (1%nat, 9); (2%nat, 17)].
Proof. reflexivity. Qed.

(** ** Filter: the checks of the arguments *)

(** C2. A frequency that is or includes "all" does not skip the frequency
    test: a list with the element "all" fails the assertion, the accepted
    list reading "all," with a comma, and a string reaches line 386, which
    reads the name [freq] that only the list branch assigns. In both cases
    the session is as it was and nothing is displayed or returned. *)
Theorem C2_all_is_rejected (self : Session) (fl : list string) (f : string)
    (inplace : bool) :
  In "all" fl ->
  rejected_with AssertionError self
    (filter_datasets self (PyList (map PyStr fl)) PyNone (PyBool inplace)) /\
  rejected_with UnboundLocalError self
    (filter_datasets self (PyStr f) PyNone (PyBool inplace)).
Proof.
  intros Hin. split; [|reflexivity].
  unfold rejected_with, filter_datasets, filtered_overview, check_filter_arguments.
  rewrite forallb_isinstance_str. cbn [negb raise_if mbind result_bind Nat.eqb
    String.length isinstance_bool].
  unfold filter_frequency. rewrite str_values_keyphrases.
  assert (Hbad : forallb (fun freq => bool_decide (freq ∈ frequencies)) fl = false).
  { apply not_true_is_false. intros Hall.
    rewrite forallb_forall in Hall. specialize (Hall _ Hin).
    vm_compute in Hall. discriminate Hall. }
  rewrite Hbad. reflexivity.
Qed.

Lemma C2_all_is_rejected_witness :
  In "all" ["all"] /\
  value (filter_datasets sample_session (PyList [PyStr "all"]) PyNone (PyBool false))
  = Raise AssertionError.
Proof.
  split; [left; reflexivity|].
  destruct (C2_all_is_rejected sample_session ["all"] "all" false
              (or_introl eq_refl)) as [H _].
  unfold rejected_with in H. simpl map in H. rewrite H. reflexivity.
Defined.

(** The spelling with the comma is what the assertion lets through. *)
Example all_with_comma :
  value (filter_datasets sample_session (PyList [PyStr "all,"]) PyNone (PyBool false))
  = Return (Some ∅).
Proof. reflexivity. Qed.

(** C4, counterexample. The capitalised "Annual" has a recognised lowercase
    value, and the call fails the assertion. *)
Lemma C4_counterexample :
  ~ frequency_validation_as_stated sample_session (PyList [PyStr "Annual"]).
Proof.
  intros [Hpass _].
  assert (Hall : Forall (fun v => Str.lower v ∈ spec_frequencies)
                   (frequency_values (PyList [PyStr "Annual"]))).
  { repeat constructor. }
  destruct (Hpass Hall) as (_ & Hassert & _).
  apply Hassert. reflexivity.
Qed.

(** A value that is not recognised fails the assertion, not a type check. *)
Example unrecognised_frequency :
  value (filter_datasets sample_session (PyList [PyStr "weekly"]) PyNone (PyBool false))
  = Raise AssertionError.
Proof. reflexivity. Qed.

Lemma filter_frequency_list ov fl :
  filter_frequency ov (PyList (map PyStr fl))
  = if forallb (fun freq => bool_decide (freq ∈ frequencies)) fl
    then Return (if negb (bool_decide ("all" ∈ fl))
                 then List.filter
                        (fun r => bool_decide (Str.lower (ov_frequency r.2) ∈ fl)) ov
                 else ov)
    else Raise AssertionError.
Proof.
  unfold filter_frequency. rewrite str_values_keyphrases.
  destruct (forallb _ fl); simpl; [|reflexivity].
  destruct (negb _); reflexivity.
Qed.

(** The exceptions of the two filters are none of those of the checks. *)
Lemma filter_start_year_raises df start_year e :
  filter_start_year df start_year = Raise e ->
  e = KeyError \/ e = ValueError \/ e = IndexError.
Proof.
  unfold filter_start_year.
  destruct (truthy start_year); [|discriminate].
  destruct start_year as [| |y| | |]; try discriminate.
  assert (Hmask : forall e', year_mask y df = Raise e' ->
                    e' = ValueError \/ e' = IndexError).
  { clear. induction df as [|r df IH]; intros e'; simpl; [discriminate|].
    unfold leading_year.
    destruct (Num.split (ov_startPeriod r.2)) as [|tok ?]; simpl.
    - intros [= <-]. now right.
    - destruct (Num.int_of tok); simpl.
      + destruct (year_mask y df) as [mask|e''|] eqn:Hdf; simpl;
          [discriminate | | discriminate].
        intros [= <-]. now apply IH.
      + intros [= <-]. now left. }
  destruct (year_mask y df) as [mask|e'|] eqn:Hdf; simpl.
  - destruct mask; [intros [= <-]; now left | discriminate].
  - intros [= <-]. destruct (Hmask _ eq_refl) as [->| ->]; auto.
  - discriminate.
Qed.

(** C4, amended. For a frequency that is a list of strings, compared as
    they are given: when every element is one of annual, quarterly, monthly,
    ad-hoc, half-yearly the call gets past its checks; when some element is
    none of the six recognised values nor the spelling "all," the call
    raises [AssertionError] before any filtering. *)
Theorem C4_list_validation (self : Session) (fl : list string)
    (start_year inplace : pyval) :
  check_filter_arguments (PyList (map PyStr fl)) start_year inplace = Return tt ->
  let o := filter_datasets self (PyList (map PyStr fl)) start_year inplace in
  (Forall (fun v => v ∈ named_frequencies) fl -> validation_passes o) /\
  (Exists (fun v => (v ∉ spec_frequencies) /\ v <> "all,") fl ->
   rejected_with AssertionError self o).
Proof.
  intros Hcheck o. subst o. split.
  - intros Hall.
    assert (Hok : forallb (fun freq => bool_decide (freq ∈ frequencies)) fl = true).
    { apply forallb_forall. intros v Hv. apply bool_decide_eq_true.
      rewrite Forall_forall in Hall. apply list_elem_of_In in Hv.
      specialize (Hall v Hv). unfold named_frequencies in Hall.
      unfold frequencies. rewrite !elem_of_cons in *. tauto. }
    unfold filter_datasets, filtered_overview.
    rewrite Hcheck. cbn [mbind result_bind].
    rewrite filter_frequency_list, Hok. cbn [mbind result_bind].
    destruct (filter_start_year _ start_year) as [F|e|] eqn:HF.
    + destruct inplace as [|[]| | | |];
        cbn [value]; destruct (restrict_dict _ _);
        repeat split; discriminate.
    + apply filter_start_year_raises in HF.
      repeat split; cbn [value]; intros [= ->];
        destruct HF as [H|[H|H]]; discriminate H.
    + repeat split; discriminate.
  - intros Hex.
    assert (Hbad : forallb (fun freq => bool_decide (freq ∈ frequencies)) fl = false).
    { apply not_true_is_false. intros Hall. rewrite forallb_forall in Hall.
      apply Exists_exists in Hex as (v & Hv & Hnot & Hcomma).
      apply list_elem_of_In in Hv. specialize (Hall v Hv).
      apply bool_decide_eq_true in Hall.
      unfold frequencies in Hall. unfold spec_frequencies in Hnot.
      rewrite !elem_of_cons in *. tauto. }
    unfold rejected_with, filter_datasets, filtered_overview.
    rewrite Hcheck. cbn [mbind result_bind].
    rewrite filter_frequency_list, Hbad. reflexivity.
Qed.

Lemma C4_list_validation_witness :
  check_filter_arguments (PyList (map PyStr ["annual"; "monthly"])) PyNone
    (PyBool false) = Return tt /\
  validation_passes
    (filter_datasets sample_session (PyList (map PyStr ["annual"; "monthly"]))
       PyNone (PyBool false)).
Proof.
  split; [reflexivity|].
  apply (C4_list_validation sample_session ["annual"; "monthly"] PyNone
           (PyBool false) eq_refl).
  repeat constructor.
Defined.

(** ** Filter: the check of [start_year] *)

Lemma string_length_append (s1 s2 : string) :
  String.length (s1 +:+ s2) = (String.length s1 + String.length s2)%nat.
Proof.
  induction s1 as [|c s1 IH]; [reflexivity|].
  rewrite append_cons. simpl. now rewrite IH.
Qed.

(** A number between two powers of ten has the digits that go with them. *)
Lemma digits_length (k fuel : nat) (n : Z) :
  (k < fuel)%nat -> (k = 0%nat -> 0 <= n) -> (k <> 0%nat -> 10 ^ Z.of_nat k <= n) ->
  n < 10 ^ Z.of_nat (S k) ->
  String.length (Num.digits fuel n) = S k.
Proof.
  revert fuel n. induction k as [|k IH]; intros fuel n Hfuel H0 Hlo Hhi.
  - destruct fuel as [|fuel]; [lia|]. simpl.
    change (10 ^ Z.of_nat 1) with 10 in Hhi.
    destruct (Z.ltb_spec n 10); [reflexivity | lia].
  - destruct fuel as [|fuel]; [lia|]. simpl Num.digits.
    specialize (Hlo ltac:(lia)).
    assert (Hpow : 10 ^ Z.of_nat (S k) = 10 * 10 ^ Z.of_nat k).
    { rewrite Nat2Z.inj_succ, Z.pow_succ_r by lia. reflexivity. }
    assert (Hpow' : 10 ^ Z.of_nat (S (S k)) = 10 * 10 ^ Z.of_nat (S k)).
    { rewrite (Nat2Z.inj_succ (S k)), Z.pow_succ_r by lia. reflexivity. }
    assert (Hpos : 0 < 10 ^ Z.of_nat k) by (apply Z.pow_pos_nonneg; lia).
    destruct (Z.ltb_spec n 10); [lia|].
    rewrite string_length_append. simpl String.length.
    rewrite (IH fuel (n / 10)).
    + lia.
    + lia.
    + intros _. apply Z.div_pos; lia.
    + intros _. apply Z.div_le_lower_bound; lia.
    + apply Z.div_lt_upper_bound; lia.
Qed.

(** A number from a power of ten on has at least that many digits. *)
Lemma digits_length_ge (k fuel : nat) (n : Z) :
  (k < fuel)%nat -> 10 ^ Z.of_nat k <= n ->
  (S k <= String.length (Num.digits fuel n))%nat.
Proof.
  revert fuel n. induction k as [|k IH]; intros fuel n Hfuel Hlo.
  - destruct fuel as [|fuel]; [lia|]. simpl.
    destruct (n <? 10); [simpl; lia|].
    rewrite string_length_append. simpl. lia.
  - destruct fuel as [|fuel]; [lia|]. simpl Num.digits.
    assert (Hpow : 10 ^ Z.of_nat (S k) = 10 * 10 ^ Z.of_nat k).
    { rewrite Nat2Z.inj_succ, Z.pow_succ_r by lia. reflexivity. }
    assert (Hpos : 0 < 10 ^ Z.of_nat k) by (apply Z.pow_pos_nonneg; lia).
    destruct (Z.ltb_spec n 10); [lia|].
    rewrite string_length_append. simpl String.length.
    assert (S k <= String.length (Num.digits fuel (n / 10)))%nat; [|lia].
    apply IH; [lia|]. apply Z.div_le_lower_bound; lia.
Qed.

(** The fuel of [str_nonneg] is enough. *)
Lemma fuel_enough (k : nat) (n : Z) :
  10 ^ Z.of_nat k <= n -> (k < S (Z.to_nat (Z.log2 n)))%nat.
Proof.
  intros Hlo.
  assert (H2 : 2 ^ Z.of_nat k <= 10 ^ Z.of_nat k) by (apply Z.pow_le_mono_l; lia).
  assert (Hlog : Z.of_nat k <= Z.log2 n).
  { rewrite <- (Z.log2_pow2 (Z.of_nat k)) by lia. apply Z.log2_le_mono. lia. }
  lia.
Qed.

Lemma str_nonneg_length_4 (n : Z) :
  0 <= n -> (String.length (Num.str_nonneg n) = 4%nat <-> 1000 <= n <= 9999).
Proof.
  intros Hn. unfold Num.str_nonneg. split.
  - intros Hlen.
    destruct (Z_lt_le_dec n 10) as [H1|H1].
    { rewrite (digits_length 0) in Hlen; [discriminate | lia | lia | lia | simpl; lia]. }
    destruct (Z_lt_le_dec n 100) as [H2|H2].
    { rewrite (digits_length 1) in Hlen;
        [discriminate | apply (fuel_enough 1); simpl; lia | lia | simpl; lia | simpl; lia]. }
    destruct (Z_lt_le_dec n 1000) as [H3|H3].
    { rewrite (digits_length 2) in Hlen;
        [discriminate | apply (fuel_enough 2); simpl; lia | lia | simpl; lia | simpl; lia]. }
    destruct (Z_lt_le_dec n 10000) as [H4|H4]; [lia|].
    pose proof (digits_length_ge 4 (S (Z.to_nat (Z.log2 n))) n
                  (fuel_enough 4 n ltac:(simpl; lia)) ltac:(simpl; lia)).
    lia.
  - intros Hr. apply (digits_length 3);
      [apply (fuel_enough 3); simpl; lia | lia | simpl; lia | simpl; lia].
Qed.

(** What line 370 accepts for an integer: the four-digit numbers, and the
    negative numbers of three digits, whose text has four characters with
    the sign. *)
Lemma start_year_accepted_int (z : Z) :
  start_year_accepted (PyInt z) <-> 1000 <= z <= 9999 \/ -999 <= z <= -100.
Proof.
  unfold start_year_accepted, check_filter_arguments.
  cbn [forallb negb raise_if mbind result_bind isinstance_bool].
  unfold Num.str_int.
  destruct (Z.ltb_spec z 0) as [Hneg|Hpos].
  - simpl String.length.
    split.
    + intros H. right.
      destruct (Nat.eqb_spec (S (String.length (Num.str_nonneg (- z)))) 4) as [Heq|];
        [|discriminate H].
      assert (H3 : String.length (Num.str_nonneg (- z)) = 3%nat) by lia.
      unfold Num.str_nonneg in H3.
      destruct (Z_lt_le_dec (- z) 10) as [H1|H1].
      { rewrite (digits_length 0) in H3; [discriminate | lia | lia | lia | simpl; lia]. }
      destruct (Z_lt_le_dec (- z) 100) as [H2|H2].
      { rewrite (digits_length 1) in H3;
          [discriminate | apply (fuel_enough 1); simpl; lia | lia | simpl; lia | simpl; lia]. }
      destruct (Z_lt_le_dec (- z) 1000) as [H4|H4]; [lia|].
      pose proof (digits_length_ge 3 (S (Z.to_nat (Z.log2 (- z)))) (- z)
                    (fuel_enough 3 (- z) ltac:(simpl; lia)) ltac:(simpl; lia)).
      lia.
    + intros [H|H]; [lia|].
      unfold Num.str_nonneg. rewrite (digits_length 2);
        [reflexivity | apply (fuel_enough 2); simpl; lia | lia | simpl; lia | simpl; lia].
  - pose proof (str_nonneg_length_4 z Hpos) as H4.
    split.
    + intros H. left. apply H4.
      destruct (Nat.eqb_spec (String.length (Num.str_nonneg z)) 4); [assumption|discriminate H].
    + intros [H|H]; [|lia]. apply H4 in H. rewrite H. reflexivity.
Qed.

Lemma start_year_accepted_none : start_year_accepted PyNone.
Proof. reflexivity. Qed.

(** C5. The check of [start_year] measures the text of the number: the
    three-digit negative number -100 has a text of four characters and is
    accepted, and the call goes on to filter with it. *)
Theorem C5_negative_three_digits_accepted :
  start_year_accepted (PyInt (-100)) /\
  ~ (1000 <= -100 <= 9999) /\
  filter_datasets sample_session (PyList [PyStr "annual"]) (PyInt (-100))
    (PyBool false)
  = {| final := sample_session;
       displayed := [[sample_row 1 2 "Annual" "2012"]];
       value := Return (Some {[ 2 := sample_table ]}) |}.
Proof.
  split; [reflexivity|]. split; [lia|]. reflexivity.
Qed.

(** ** Filter: the dictionary comprehension and the masks *)

Section RestrictDict.

Implicit Types (ts d : gmap Z SeriesTable) (ids : list Z).

Lemma restrict_dict_lookup ts ids d :
  restrict_dict ts ids = Some d ->
  forall k, d !! k = if bool_decide (k ∈ ids) then ts !! k else None.
Proof.
  revert d. induction ids as [|ID ids IH]; intros d; cbn [restrict_dict].
  - intros [= <-] k. rewrite lookup_empty.
    rewrite bool_decide_eq_false_2; [reflexivity | apply not_elem_of_nil].
  - destruct (ts !! ID) as [t|] eqn:Ht; [|discriminate].
    destruct (restrict_dict ts ids) as [d'|]; [|discriminate].
    intros [= <-] k. specialize (IH d' eq_refl k).
    destruct (decide (ID = k)) as [->|Hne].
    + rewrite lookup_insert_eq, bool_decide_eq_true_2; [now rewrite Ht | left].
    + rewrite lookup_insert_ne by assumption. rewrite IH.
      destruct (bool_decide (k ∈ ids)) eqn:Hk.
      * apply bool_decide_eq_true in Hk.
        rewrite bool_decide_eq_true_2; [reflexivity | now right].
      * apply bool_decide_eq_false in Hk.
        rewrite bool_decide_eq_false_2; [reflexivity|].
        rewrite elem_of_cons. intros [->|]; [now apply Hne | now apply Hk].
Qed.

Lemma restrict_dict_keys ts ids d :
  restrict_dict ts ids = Some d -> forall k, k ∈ ids -> is_Some (ts !! k).
Proof.
  revert d. induction ids as [|ID ids IH]; intros d; cbn [restrict_dict].
  - intros _ k Hk. now apply elem_of_nil in Hk.
  - destruct (ts !! ID) as [t|] eqn:Ht; [|discriminate].
    destruct (restrict_dict ts ids) as [d'|]; [|discriminate].
    intros _ k Hk. apply elem_of_cons in Hk as [->|Hk]; [now exists t|].
    now apply (IH d').
Qed.

Lemma restrict_dict_defined ts ids :
  (forall k, k ∈ ids -> is_Some (ts !! k)) -> is_Some (restrict_dict ts ids).
Proof.
  induction ids as [|ID ids IH]; intros Hkeys; cbn [restrict_dict]; [now eexists|].
  destruct (Hkeys ID ltac:(left)) as [t ->].
  destruct IH as [d' ->]; [|now eexists].
  intros k Hk. apply Hkeys. now right.
Qed.

(** The comprehension over its own result changes nothing. *)
Lemma restrict_dict_again ts ids d :
  restrict_dict ts ids = Some d -> restrict_dict d ids = Some d.
Proof.
  intros Hd.
  pose proof (restrict_dict_lookup _ _ _ Hd) as Hlook.
  pose proof (restrict_dict_keys _ _ _ Hd) as Hkeys.
  destruct (restrict_dict_defined d ids) as [d' Hd'].
  { intros k Hk. rewrite Hlook, bool_decide_eq_true_2 by assumption.
    now apply Hkeys. }
  rewrite Hd'. f_equal. apply map_eq. intros k.
  rewrite (restrict_dict_lookup _ _ _ Hd' k), (Hlook k).
  destruct (bool_decide (k ∈ ids)); reflexivity.
Qed.

End RestrictDict.

Section Filters.

Context {A : Type}.
Implicit Types (f g : A -> bool) (l : list A).

Lemma filter_comm f g l :
  List.filter f (List.filter g l) = List.filter g (List.filter f l).
Proof.
  induction l as [|x l IH]; simpl; [reflexivity|].
  destruct (g x) eqn:Hg, (f x) eqn:Hf; simpl; rewrite ?Hg, ?Hf, IH; reflexivity.
Qed.

Lemma filter_idem f l : List.filter f (List.filter f l) = List.filter f l.
Proof.
  induction l as [|x l IH]; simpl; [reflexivity|].
  destruct (f x) eqn:Hf; simpl; rewrite ?Hf, IH; reflexivity.
Qed.

Lemma filter_all f l : (forall x, In x l -> f x = true) -> List.filter f l = l.
Proof.
  induction l as [|x l IH]; intros Hall; simpl; [reflexivity|].
  rewrite (Hall x (or_introl eq_refl)), IH; [reflexivity|].
  intros y Hy. apply Hall. now right.
Qed.

Lemma filter_true l : List.filter (fun _ => true) l = l.
Proof. apply filter_all. reflexivity. Qed.

End Filters.

(** The mask of line 393, when every period can be read, is [year_ok] row
    by row, and selecting by it is filtering by [year_ok]. *)
Lemma year_mask_select (y : Z) (df : DataFrame) (mask : list bool) :
  year_mask y df = Return mask ->
  mask = map (year_ok y) df /\ select_rows mask df = List.filter (year_ok y) df.
Proof.
  revert mask. induction df as [|r df IH]; intros mask; simpl.
  - intros [= <-]. split; reflexivity.
  - unfold year_ok at 1 3.
    destruct (leading_year (ov_startPeriod r.2)) as [v|e|]; simpl; try discriminate.
    destruct (year_mask y df) as [mask'|e|]; simpl; try discriminate.
    intros [= <-]. destruct (IH mask' eq_refl) as [-> Hsel]. split; [reflexivity|].
    unfold select_rows in *. simpl.
    destruct (y <=? v); simpl; now rewrite Hsel.
Qed.

(** When every period of a frame can be read, so can those of a part of
    it. *)
Lemma year_mask_filter (y : Z) (df : DataFrame) (mask : list bool)
    (f : nat * OverviewRecord -> bool) :
  year_mask y df = Return mask ->
  exists mask', year_mask y (List.filter f df) = Return mask'.
Proof.
  revert mask. induction df as [|r df IH]; intros mask; simpl.
  - intros _. now eexists.
  - destruct (leading_year (ov_startPeriod r.2)) as [v|e|] eqn:Hv; simpl;
      try discriminate.
    destruct (year_mask y df) as [mask'|e|]; simpl; try discriminate.
    intros _. destruct (IH mask' eq_refl) as [m Hm].
    destruct (f r); [|now exists m].
    simpl. rewrite Hv, Hm. simpl. now eexists.
Qed.

(** The two filters keep the rows that pass a test of their own, row by
    row, whenever they return. *)
Lemma filter_frequency_test (frequency : pyval) (ov F : DataFrame) :
  filter_frequency ov frequency = Return F ->
  exists P, forall ov', filter_frequency ov' frequency = Return (List.filter P ov').
Proof.
  unfold filter_frequency.
  destruct frequency as [| | | |l|]; try discriminate;
    try (intros _; exists (fun _ => true); intros ov'; now rewrite filter_true).
  destruct (forallb _ (str_values l)); simpl; [|discriminate].
  destruct (negb _); intros _.
  - eexists. intros ov'. reflexivity.
  - exists (fun _ => true). intros ov'. now rewrite filter_true.
Qed.

Lemma filter_start_year_test (start_year : pyval) (G F : DataFrame) :
  filter_start_year G start_year = Return F ->
  exists Y, F = List.filter Y G /\
    forall f F', filter_start_year (List.filter f G) start_year = Return F' ->
                 F' = List.filter Y (List.filter f G).
Proof.
  unfold filter_start_year.
  destruct (truthy start_year).
  2:{ intros [= <-]. exists (fun _ => true). split; [now rewrite filter_true|].
      intros f F' [= <-]. now rewrite filter_true. }
  destruct start_year as [| |y| | |];
    try (intros [= <-]; exists (fun _ => true); split; [now rewrite filter_true|];
         intros f F' [= <-]; now rewrite filter_true).
  destruct (year_mask y G) as [mask|e|] eqn:Hmask; simpl; try discriminate.
  destruct (year_mask_select _ _ _ Hmask) as [_ Hsel].
  destruct mask as [|b mask]; [discriminate|].
  intros [= <-]. exists (year_ok y). split; [exact Hsel|].
  intros f F'.
  destruct (year_mask_filter y G _ f Hmask) as [mask' Hmask'].
  rewrite Hmask'. simpl.
  destruct (year_mask_select _ _ _ Hmask') as [_ Hsel'].
  destruct mask'; [discriminate|]. intros [= <-]. exact Hsel'.
Qed.

(** Filtering again the rows that an in-place call kept gives the same
    rows, if it gives any. *)
Lemma filtered_overview_stable (self self' : Session)
    (frequency start_year inplace : pyval) (F F' : DataFrame) :
  filtered_overview self frequency start_year inplace = Return F ->
  overview self' = rows_isin (map row_id F) (overview self) ->
  filtered_overview self' frequency start_year inplace = Return F' ->
  F' = F.
Proof.
  unfold filtered_overview. intros HF Hov HF'.
  destruct (check_filter_arguments frequency start_year inplace) as [[]|e|];
    simpl in *; try discriminate.
  destruct (filter_frequency (overview self) frequency) as [G|e|] eqn:HG;
    simpl in *; try discriminate.
  destruct (filter_frequency_test _ _ _ HG) as [P HP].
  rewrite HP in HG. injection HG as <-.
  rewrite HP in HF'. simpl in HF'. rewrite Hov in HF'. unfold rows_isin in HF'.
  rewrite filter_comm in HF'.
  destruct (filter_start_year_test _ _ _ HF) as (Y & -> & Hagain).
  apply Hagain in HF'. subst F'.
  rewrite filter_comm. apply filter_all.
  intros r Hr. apply bool_decide_eq_true.
  apply list_elem_of_In, in_map, Hr.
Qed.

Lemma rows_isin_again (ids : list Z) (df : DataFrame) :
  rows_isin ids (rows_isin ids df) = rows_isin ids df.
Proof. apply filter_idem. Qed.

(** ** Filter: the session after a call *)

(** Only an in-place call whose filters returned touches the session. *)
Lemma final_filter_datasets (self : Session) (frequency start_year inplace : pyval) :
  final (filter_datasets self frequency start_year inplace)
  = match filtered_overview self frequency start_year inplace, inplace with
    | Return F, PyBool true =>
        {| resource_ids := map row_id F;
           overview := rows_isin (map row_id F) (overview self);
           timeseries := default (timeseries self)
                           (restrict_dict (timeseries self) (map row_id F)) |}
    | _, _ => self
    end.
Proof.
  unfold filter_datasets.
  destruct (filtered_overview self frequency start_year inplace) as [F|e|];
    [|reflexivity|reflexivity].
  destruct inplace as [|[]| | | |]; cbn [resource_ids overview timeseries];
    destruct (restrict_dict (timeseries self) (map row_id F)); reflexivity.
Qed.

(** C7. A call of [filter_datasets] followed by a second call with the
    same arguments leaves the identifiers, the overview and the series of
    the session as the first call left them. This holds for every
    frequency, start year and mode, in particular for "quarterly", 2000 and
    in place. *)
Theorem C7_second_call_changes_nothing
    (self : Session) (frequency start_year inplace : pyval) :
  let once := final (filter_datasets self frequency start_year inplace) in
  final (filter_datasets once frequency start_year inplace) = once.
Proof.
  intros once. subst once.
  rewrite (final_filter_datasets self).
  destruct (filtered_overview self frequency start_year inplace) as [F|e|] eqn:HF.
  2,3: now rewrite final_filter_datasets, HF.
  destruct inplace as [|[]| | | |];
    try (now rewrite final_filter_datasets, HF).
  set (once := {| resource_ids := map row_id F;
                  overview := rows_isin (map row_id F) (overview self);
                  timeseries := default (timeseries self)
                                  (restrict_dict (timeseries self) (map row_id F)) |}).
  rewrite (final_filter_datasets once).
  destruct (filtered_overview once frequency start_year (PyBool true))
    as [F'|e'|] eqn:HF'; [|reflexivity|reflexivity].
  assert (F' = F) as ->.
  { eapply (filtered_overview_stable self once); [exact HF | reflexivity | exact HF']. }
  unfold once. cbn [resource_ids overview timeseries].
  rewrite rows_isin_again. f_equal.
  destruct (restrict_dict (timeseries self) (map row_id F)) as [d|] eqn:Hd;
    unfold default; cbn [from_option id].
  - now rewrite (restrict_dict_again _ _ _ Hd).
  - now rewrite Hd.
Qed.

(** With the string "quarterly" both calls stop at line 386; with the list
    the first call keeps the quarterly dataset that starts in 2005 and the
    second keeps it again. *)
Example quarterly_string :
  filter_datasets sample_session (PyStr "quarterly") (PyInt 2000) (PyBool true)
  = {| final := sample_session; displayed := []; value := Raise UnboundLocalError |}.
Proof. reflexivity. Qed.

Example quarterly_list :
  let once := final (filter_datasets sample_session (PyList [PyStr "quarterly"])
                       (PyInt 2000) (PyBool true)) in
  resource_ids once = [3] /\
  overview once = [sample_row 2 3 "Quarterly" "2005 1Q"] /\
  timeseries once = {[ 3 := sample_table ]} /\
  filter_datasets once (PyList [PyStr "quarterly"]) (PyInt 2000) (PyBool true)
  = {| final := once; displayed := [overview once]; value := Return None |}.
Proof. repeat split; reflexivity. Qed.

(** ** Filter: the copy mode *)


(** The rows that survive the filters are rows of the overview. *)
Lemma filtered_overview_rows (self : Session)
    (frequency start_year inplace : pyval) (F : DataFrame) :
  filtered_overview self frequency start_year inplace = Return F ->
  forall r, In r F -> In r (overview self).
Proof.
  unfold filtered_overview. intros HF r Hr.
  destruct (check_filter_arguments frequency start_year inplace) as [[]|e|];
    simpl in HF; try discriminate.
  destruct (filter_frequency (overview self) frequency) as [G|e|] eqn:HG;
    simpl in HF; try discriminate.
  destruct (filter_frequency_test _ _ _ HG) as [P HP].
  rewrite HP in HG. injection HG as <-.
  destruct (filter_start_year_test _ _ _ HF) as (Y & -> & _).
  apply filter_In in Hr as [Hr _]. now apply filter_In in Hr as [Hr _].
Qed.


(** Without a start year, a list of accepted values always gets through
    the filters. *)
Lemma filtered_overview_without_year (self : Session) (fl : list string)
    (inplace : bool) :
  Forall (fun v => v ∈ frequencies) fl ->
  filtered_overview self (PyList (map PyStr fl)) PyNone (PyBool inplace)
  = Return (if negb (bool_decide ("all" ∈ fl))
            then List.filter
                   (fun r => bool_decide (Str.lower (ov_frequency r.2) ∈ fl))
                   (overview self)
            else overview self).
Proof.
  intros Hall. unfold filtered_overview, check_filter_arguments.
  rewrite forallb_isinstance_str. cbn [negb raise_if mbind result_bind
    String.length Nat.eqb isinstance_bool].
  rewrite filter_frequency_list.
  assert (Hok : forallb (fun freq => bool_decide (freq ∈ frequencies)) fl = true).
  { apply forallb_forall. intros v Hv. apply bool_decide_eq_true.
    rewrite Forall_forall in Hall. apply Hall. now apply list_elem_of_In. }
  rewrite Hok. reflexivity.
Qed.

(** C6. In the copy mode the session is left as it was, but the mapping is
    not returned for every valid argument: a frequency given as a string
    stops at line 386, and a start year together with a frequency that no
    dataset of the session has stops at line 397, the empty mask having
    selected no column. *)
Theorem C6_copy_mode_raises :
  filter_datasets sample_session (PyStr "annual") PyNone (PyBool false)
  = {| final := sample_session; displayed := []; value := Raise UnboundLocalError |} /\
  filter_datasets sample_session (PyList [PyStr "monthly"]) (PyInt 2000) (PyBool false)
  = {| final := sample_session; displayed := []; value := Raise KeyError |} /\
  filter_datasets sample_session (PyList [PyStr "monthly"]) PyNone (PyBool false)
  = {| final := sample_session; displayed := [[]]; value := Return (Some ∅) |}.
Proof. repeat split; reflexivity. Qed.

Example copy_annual :
  filter_datasets sample_session (PyList [PyStr "annual"]) (PyInt 2000) (PyBool false)
  = {| final := sample_session;
       displayed := [[sample_row 1 2 "Annual" "2012"]];
       value := Return (Some {[ 2 := sample_table ]}) |}.
Proof. reflexivity. Qed.

(** * Further properties of the code *)

#[local] Set Warnings "-clear-no-such-hyp".

(** ** Resolver *)

Lemma lower_char_idem (c : ascii) :
  Str.lower_char (Str.lower_char c) = Str.lower_char c.
Proof. destruct c as [[] [] [] [] [] [] [] []]; reflexivity. Qed.

Lemma lower_idem (s : string) : Str.lower (Str.lower s) = Str.lower s.
Proof.
  induction s as [|c s IH]; simpl; [reflexivity|].
  now rewrite lower_char_idem, IH.
Qed.

Lemma ids_where_opt_ext (f g : DatasetDirectoryEntry -> option bool)
    (dir : list DatasetDirectoryEntry) :
  (forall d, f d = g d) -> ids_where_opt f dir = ids_where_opt g dir.
Proof.
  intros Hfg. induction dir as [|d dir IH]; simpl; [reflexivity|].
  now rewrite Hfg, IH.
Qed.

Lemma ids_where_lower_titles (cond : DatasetDirectoryEntry -> bool)
    (dir : list DatasetDirectoryEntry) :
  ids_where cond (map lower_title dir) = ids_where (fun d => cond (lower_title d)) dir.
Proof.
  unfold ids_where. induction dir as [|d dir IH]; simpl; [reflexivity|].
  destruct (cond (lower_title d)); simpl; now rewrite IH.
Qed.

Lemma ids_where_opt_lower_titles (cond : DatasetDirectoryEntry -> option bool)
    (dir : list DatasetDirectoryEntry) :
  ids_where_opt cond (map lower_title dir)
  = ids_where_opt (fun d => cond (lower_title d)) dir.
Proof.
  induction dir as [|d dir IH]; simpl; [reflexivity|]. now rewrite IH.
Qed.

Lemma str_values_lower (l : list pyval) :
  str_values (map (fun v => match v with PyStr k => PyStr (Str.lower k) | _ => v end) l)
  = map Str.lower (str_values l).
Proof.
  unfold str_values. induction l as [|v l IH]; [reflexivity|].
  destruct v; cbn; rewrite ?IH; try reflexivity; exact IH.
Qed.

Lemma forallb_isinstance_str_lower (l : list pyval) :
  forallb isinstance_str
    (map (fun v => match v with PyStr k => PyStr (Str.lower k) | _ => v end) l)
  = forallb isinstance_str l.
Proof.
  induction l as [|v l IH]; simpl; [reflexivity|].
  rewrite IH. destruct v; reflexivity.
Qed.

Lemma map_lower_idem (ks : list string) :
  map Str.lower (map Str.lower ks) = map Str.lower ks.
Proof.
  induction ks as [|k ks IH]; simpl; [reflexivity|].
  now rewrite lower_idem, IH.
Qed.

(** X1. The resolver is insensitive to case on both sides: putting the
    keyphrases in lower case and the titles of the directory in lower case
    changes nothing in what the call returns or raises, for every form of
    the keyphrases and both values of [match_all]. *)
Theorem X1_resolver_ignores_case (json : directory_json)
    (keyphrases match_all : pyval) :
  get_resource_id (lower_titles json) (lower_keyphrases keyphrases) match_all
  = get_resource_id json keyphrases match_all.
Proof.
  unfold get_resource_id.
  assert (Hcheck : check_keyphrases (lower_keyphrases keyphrases)
                   = check_keyphrases keyphrases).
  { destruct keyphrases; try reflexivity. simpl.
    now rewrite forallb_isinstance_str_lower. }
  rewrite Hcheck.
  destruct (check_keyphrases keyphrases) as [[]|e|]; [|reflexivity|reflexivity].
  cbn [mbind result_bind].
  destruct (raise_if (negb (isinstance_bool match_all)) TypeError) as [[]|e|];
    [|reflexivity|reflexivity].
  cbn [mbind result_bind].
  destruct json as [[|d dir]|]; [reflexivity| |reflexivity].
  change (lower_titles (Some (d :: dir)))
    with (Some (lower_title d :: map lower_title dir)).
  change (lower_title d :: map lower_title dir) with (map lower_title (d :: dir)).
  destruct keyphrases as [| | |k|l|]; cbn [lower_keyphrases]; try reflexivity.
  - now rewrite ids_where_lower_titles.
  - rewrite ids_where_lower_titles. do 2 f_equal. apply ids_where_ext.
    intros e. cbn [lower_title entry_title]. now rewrite !lower_idem.
  - rewrite str_values_lower, map_lower_idem.
    destruct match_all as [|[]| | | |];
      try (rewrite ids_where_lower_titles; do 2 f_equal; apply ids_where_ext;
           intros e; cbn [lower_title entry_title]; rewrite !lower_idem;
           induction (str_values l) as [|k ks IH]; simpl;
           [reflexivity | now rewrite lower_idem, IH]).
    rewrite ids_where_opt_lower_titles.
    rewrite (ids_where_opt_ext _
               (fun d => Re.re_search (Str.join "|" (map Str.lower (str_values l)))
                           (Str.lower (entry_title d)))).
    + reflexivity.
    + intros e. cbn [lower_title entry_title]. now rewrite lower_idem.
Qed.

Lemma forallb_isinstance_str_iff (l : list pyval) :
  forallb isinstance_str l = true <-> exists ks, l = map PyStr ks.
Proof.
  split.
  - induction l as [|v l IH]; intros H; [now exists []|].
    simpl in H. apply andb_true_iff in H as [Hv Hl].
    destruct (IH Hl) as [ks ->].
    destruct v; try discriminate Hv. now exists (s :: ks).
  - intros [ks ->]. apply forallb_isinstance_str.
Qed.


Lemma ids_where_sublist (cond : DatasetDirectoryEntry -> bool)
    (dir : list DatasetDirectoryEntry) :
  ids_where cond dir `sublist_of` map entry_id dir.
Proof.
  unfold ids_where. induction dir as [|d dir IH]; simpl; [constructor|].
  destruct (cond d); simpl; [now apply sublist_skip | now apply sublist_cons].
Qed.

Lemma ids_where_opt_sublist (cond : DatasetDirectoryEntry -> option bool)
    (dir : list DatasetDirectoryEntry) (l : list Z) :
  ids_where_opt cond dir = Some l -> l `sublist_of` map entry_id dir.
Proof.
  revert l. induction dir as [|d dir IH]; intros l; simpl.
  - intros [= <-]. constructor.
  - destruct (cond d) as [[]|]; try discriminate;
      destruct (ids_where_opt cond dir) as [l'|]; try discriminate;
      intros [= <-].
    + apply sublist_skip. now apply IH.
    + apply sublist_cons. now apply IH.
Qed.

Lemma resolver_returns_sublist (json : directory_json)
    (keyphrases match_all : pyval) (l : list Z) :
  get_resource_id json keyphrases match_all = Return (Some l) ->
  exists dir, json = Some dir /\
    l `sublist_of` map entry_id dir /\
    (NoDup (map entry_id dir) -> NoDup l).
Proof.
  intros Hres.
  assert (Hsub : exists dir, json = Some dir /\ l `sublist_of` map entry_id dir).
  { unfold get_resource_id in Hres.
    destruct (check_keyphrases keyphrases) as [[]|e|]; try discriminate.
    destruct (raise_if _ _) as [[]|e|]; try discriminate.
    cbn [mbind result_bind] in Hres.
    destruct json as [[|d dir]|]; try discriminate.
    exists (d :: dir). split; [reflexivity|].
    destruct keyphrases as [| | |k|ks|]; try discriminate.
    - injection Hres as <-. apply ids_where_sublist.
    - injection Hres as <-. apply ids_where_sublist.
    - destruct match_all as [|[]| | | |];
        try (injection Hres as <-; apply ids_where_sublist).
      destruct (ids_where_opt _ _) as [ids|] eqn:Hids; [|discriminate].
      injection Hres as <-. eapply ids_where_opt_sublist, Hids. }
  destruct Hsub as (dir & -> & Hsub).
  exists dir. split; [reflexivity|]. split; [exact Hsub|].
  intros Hnd. eapply sublist_NoDup; eassumption.
Qed.

(** X3. Whatever list the resolver returns is taken from the identifiers of
    the directory in their order, none added and none moved; when the
    directory has no identifier twice, neither has the list. *)
Theorem X3_resolver_returns_sublist (json : directory_json)
    (keyphrases match_all : pyval) (l : list Z) :
  get_resource_id json keyphrases match_all = Return (Some l) ->
  exists dir, json = Some dir /\
    l `sublist_of` map entry_id dir /\
    (NoDup (map entry_id dir) -> NoDup l).
Proof. exact (resolver_returns_sublist json keyphrases match_all l). Qed.

Lemma X3_resolver_returns_sublist_witness :
  get_resource_id (Some scenario_directory) (PyStr "price") (PyBool false)
    = Return (Some [1; 3]) /\
  exists dir, Some scenario_directory = Some dir /\
    [1; 3] `sublist_of` map entry_id dir /\
    (NoDup (map entry_id dir) -> NoDup [1; 3]).
Proof.
  split; [reflexivity|].
  apply (X3_resolver_returns_sublist (Some scenario_directory) (PyStr "price")
           (PyBool false) [1; 3]).
  reflexivity.
Defined.

Lemma filter_and_sublist {A : Type} (f g : A -> bool) (l : list A) :
  List.filter (fun x => f x && g x) l `sublist_of` List.filter f l.
Proof.
  induction l as [|x l IH]; simpl; [constructor|].
  destruct (f x), (g x); simpl;
    [now apply sublist_skip | now apply sublist_cons | exact IH | exact IH].
Qed.

(** X4. With [match_all=True] further keyphrases can only take identifiers
    away: the list returned for the keyphrases [ks] followed by [ks'] is
    taken, in order, from the list returned for [ks]. A list of one
    keyphrase returns what the bare string returns, special characters or
    not. *)
Theorem X4_match_all_narrows (d : DatasetDirectoryEntry)
    (dir : list DatasetDirectoryEntry) (ks ks' : list string) (k : string) :
  (exists l l',
     get_resource_id (Some (d :: dir)) (keyphrase_list (ks ++ ks')) (PyBool true)
       = Return (Some l) /\
     get_resource_id (Some (d :: dir)) (keyphrase_list ks) (PyBool true)
       = Return (Some l') /\
     l `sublist_of` l') /\
  get_resource_id (Some (d :: dir)) (keyphrase_list [k]) (PyBool true)
  = get_resource_id (Some (d :: dir)) (PyStr k) (PyBool true).
Proof.
  split.
  - rewrite !get_resource_id_all. do 2 eexists.
    split; [reflexivity|]. split; [reflexivity|].
    unfold ids_matching_all, ids_where.
    rewrite (filter_ext (fun e => forallb (fun k => title_contains k e) (ks ++ ks'))
               (fun e => forallb (fun k => title_contains k e) ks
                         && forallb (fun k => title_contains k e) ks'))
      by (intros e; apply forallb_app).
    apply (fmap_sublist entry_id), filter_and_sublist.
  - rewrite get_resource_id_all. unfold ids_matching_all.
    cbn -[ids_where]. do 2 f_equal. apply ids_where_ext.
    intros e. simpl. now rewrite andb_true_r.
Qed.

Lemma lower_append (s1 s2 : string) :
  Str.lower (s1 +:+ s2) = Str.lower s1 +:+ Str.lower s2.
Proof.
  induction s1 as [|c s1 IH]; [reflexivity|].
  rewrite append_cons. simpl. rewrite append_cons. now rewrite IH.
Qed.

(** X5. With [match_all=False] a bar inside a keyphrase splits it: the one
    keyphrase "k1|k2" returns, or fails, as the two keyphrases [k1] and
    [k2] do. *)
Theorem X5_bar_splits_keyphrase (json : directory_json) (k1 k2 : string) :
  get_resource_id json (keyphrase_list [k1 +:+ "|" +:+ k2]) (PyBool false)
  = get_resource_id json (keyphrase_list [k1; k2]) (PyBool false).
Proof.
  unfold get_resource_id, keyphrase_list, check_keyphrases.
  rewrite !forallb_isinstance_str, !str_values_keyphrases.
  cbn [negb raise_if mbind result_bind isinstance_bool].
  destruct json as [[|d dir]|]; try reflexivity.
  cbn [map Str.join]. rewrite !lower_append. reflexivity.
Qed.

Lemma contains_empty (t : string) : Str.contains EmptyString t = true.
Proof. destruct t; reflexivity. Qed.

(** X6. Over a directory with at least one entry, absent keyphrases and
    the empty string as keyphrase both return every identifier of the
    directory, in directory order: one identifier per entry. *)
Theorem X6_no_keyphrase_returns_all (d : DatasetDirectoryEntry)
    (dir : list DatasetDirectoryEntry) (match_all : bool) :
  get_resource_id (Some (d :: dir)) PyNone (PyBool match_all)
    = Return (Some (map entry_id (d :: dir))) /\
  get_resource_id (Some (d :: dir)) (PyStr "") (PyBool match_all)
    = Return (Some (map entry_id (d :: dir))).
Proof.
  split.
  - unfold get_resource_id. cbn -[ids_where map]. now rewrite ids_where_true.
  - unfold get_resource_id. cbn -[ids_where Str.contains map].
    rewrite <- (ids_where_true (d :: dir)). do 2 f_equal. apply ids_where_ext.
    intros e. apply contains_empty.
Qed.

(** ** Metadata aggregator, further *)

Section OverviewMore.

Variable metadata_json : pyval -> option (list MetadataRecord).



(** What [build_all] returns is the frame it started from followed by the
    rows of every identifier, and every identifier had rows. *)
Lemma build_all_rows (ids : list pyval) (df_full df : DataFrame) :
  build_all metadata_json df_full ids = Return df ->
  exists rows,
    df = df_full ++ rows /\
    map snd rows = concat (map (fetched_rows metadata_json) ids) /\
    Forall (fun ID => exists m records, metadata_json ID = Some (m :: records)) ids.
Proof.
  revert df_full. induction ids as [|ID ids IH]; intros df_full; simpl.
  - intros [= <-]. exists []. now rewrite app_nil_r.
  - unfold build_metadata_table at 1, fetched_rows at 1.
    destruct (metadata_json ID) as [[|m records]|] eqn:HID; try discriminate.
    cbn [mbind result_bind]. intros Hrest.
    destruct (IH _ Hrest) as (rows & -> & Hrows & Hall).
    exists (number_rows (map drop_columns (m :: records)) ++ rows).
    split; [now rewrite app_assoc|]. split.
    + rewrite map_app, data_number_rows, Hrows. reflexivity.
    + constructor; [now exists m, records | exact Hall].
Qed.

Lemma get_overview_rows (resource_ids : pyval) (df : DataFrame) :
  get_overview metadata_json resource_ids = Return df ->
  exists rows,
    rows <> [] /\
    df = reset_index (sort_values_resourceId rows) /\
    map snd rows = concat (map (fetched_rows metadata_json) (requested resource_ids)) /\
    Forall (fun ID => exists m records, metadata_json ID = Some (m :: records))
      (requested resource_ids).
Proof.
  unfold get_overview. intros Hdf.
  destruct (check_resource_ids resource_ids) as [[]|e|]; try discriminate.
  cbn [mbind result_bind] in Hdf.
  assert (Hall : match resource_ids with
                 | PyInt _ => build_metadata_table metadata_json [] resource_ids
                 | PyList l => build_all metadata_json [] l
                 | _ => Return []
                 end = build_all metadata_json [] (requested resource_ids)).
  { destruct resource_ids; try reflexivity. simpl.
    destruct (build_metadata_table metadata_json [] (PyInt z)); reflexivity. }
  rewrite Hall in Hdf.
  destruct (build_all metadata_json [] (requested resource_ids)) as [rows|e|] eqn:Hrows;
    try discriminate.
  cbn [mbind result_bind] in Hdf.
  destruct (build_all_rows _ _ _ Hrows) as (rows' & Heq & Hsnd & Hfetch).
  simpl in Heq. subst rows'.
  destruct rows as [|r rows]; [discriminate|]. injection Hdf as <-.
  exists (r :: rows). repeat split; try assumption. discriminate.
Qed.

Lemma overview_shape (resource_ids : pyval) (df : DataFrame) :
  get_overview metadata_json resource_ids = Return df ->
  df <> [] /\
  map fst df = seq 0 (length df) /\
  Sorted Z.le (map row_id df).
Proof.
  intros Hdf.
  destruct (get_overview_rows _ _ Hdf) as (rows & Hne & -> & _ & _).
  assert (Hperm : sort_values_resourceId rows ≡ₚ rows)
    by apply merge_sort_Permutation.
  assert (Hlen : length (reset_index (sort_values_resourceId rows)) = length rows).
  { unfold reset_index. rewrite length_number_rows, length_map.
    apply (Permutation_length Hperm). }
  split; [|split].
  - intros Hnil. rewrite Hnil in Hlen. destruct rows; [now apply Hne | discriminate].
  - rewrite Hlen. unfold reset_index. rewrite labels_number_rows, length_map.
    now rewrite (Permutation_length Hperm).
  - unfold reset_index, row_id.
    rewrite <- (map_map snd ov_resourceId (number_rows _)), data_number_rows.
    rewrite map_map. apply (Sorted_fmap row_id id_le Z.le).
    + intros r1 r2 H. exact H.
    + apply Sorted_merge_sort. apply _.
Qed.

(** X8. Whatever table the aggregator returns has at least one row, the
    index 0, 1, 2, ... without gap, and its rows in ascending order of
    identifier, whatever the metadata service answered. *)
Theorem X8_overview_shape (resource_ids : pyval) (df : DataFrame) :
  get_overview metadata_json resource_ids = Return df ->
  df <> [] /\
  map fst df = seq 0 (length df) /\
  Sorted Z.le (map row_id df).
Proof. exact (overview_shape resource_ids df). Qed.



Lemma overview_all_or_nothing (resource_ids : pyval) :
  (forall df, get_overview metadata_json resource_ids = Return df ->
     Forall (fun ID => exists m records, metadata_json ID = Some (m :: records))
       (requested resource_ids)) /\
  (forall e, get_overview metadata_json resource_ids = Raise e ->
     e = TypeError \/ e = KeyError) /\
  get_overview metadata_json resource_ids <> Unmodelled.
Proof.
  split; [|split].
  - intros df Hdf. now destruct (get_overview_rows _ _ Hdf) as (rows & _ & _ & _ & H).
  - assert (Hbuild : forall ids acc e,
              build_all metadata_json acc ids = Raise e -> e = TypeError \/ e = KeyError).
    { induction ids as [|ID ids IH]; intros acc e; simpl; [discriminate|].
      unfold build_metadata_table at 1.
      destruct (metadata_json ID) as [[|m records]|]; cbn [mbind result_bind].
      - intros [= <-]. now right.
      - apply IH.
      - intros [= <-]. now left. }
    intros e. unfold get_overview, check_resource_ids.
    destruct resource_ids as [| |z| |l|]; try (intros [= <-]; now left).
    + cbn [mbind result_bind].
      unfold build_metadata_table.
      destruct (metadata_json (PyInt z)) as [[|m records]|]; cbn [mbind result_bind].
      * intros [= <-]. now right.
      * discriminate.
      * intros [= <-]. now left.
    + destruct (forallb isinstance_int l); cbn [negb raise_if mbind result_bind];
        [|intros [= <-]; now left].
      destruct (build_all metadata_json [] l) as [rows|e'|] eqn:Hrows;
        cbn [mbind result_bind].
      * destruct rows; [intros [= <-]; now right | discriminate].
      * intros [= <-]. eapply Hbuild, Hrows.
      * discriminate.
  - assert (Hbuild : forall ids acc, build_all metadata_json acc ids <> Unmodelled).
    { induction ids as [|ID ids IH]; intros acc; simpl; [discriminate|].
      unfold build_metadata_table at 1.
      destruct (metadata_json ID) as [[|m records]|]; cbn [mbind result_bind];
        [discriminate | apply IH | discriminate]. }
    unfold get_overview, check_resource_ids.
    destruct resource_ids as [| |z| |l|]; try discriminate.
    + cbn [mbind result_bind]. unfold build_metadata_table.
      destruct (metadata_json (PyInt z)) as [[|m records]|]; discriminate.
    + destruct (forallb isinstance_int l); cbn [negb raise_if mbind result_bind];
        [|discriminate].
      destruct (build_all metadata_json [] l) as [rows|e'|] eqn:Hrows;
        cbn [mbind result_bind]; try discriminate.
      * destruct rows; discriminate.
      * exfalso. eapply Hbuild, Hrows.
Qed.

(** X10. The aggregator returns a table only if the metadata service gave
    at least one record for every requested identifier: one identifier
    without an answer, or with an empty one, makes the whole call raise, and
    what it raises is [TypeError] or [KeyError]. *)
Theorem X10_overview_all_or_nothing (resource_ids : pyval) :
  (forall df, get_overview metadata_json resource_ids = Return df ->
     Forall (fun ID => exists m records, metadata_json ID = Some (m :: records))
       (requested resource_ids)) /\
  (forall e, get_overview metadata_json resource_ids = Raise e ->
     e = TypeError \/ e = KeyError) /\
  get_overview metadata_json resource_ids <> Unmodelled.
Proof. exact (overview_all_or_nothing resource_ids). Qed.

End OverviewMore.


Lemma X8_overview_shape_witness :
  exists df,
    get_overview sample_metadata_json (PyList [PyInt 17; PyInt 3]) = Return df /\
    df <> [] /\ map fst df = seq 0 (length df) /\ Sorted Z.le (map row_id df).
Proof.
  eexists. split; [reflexivity|].
  apply (X8_overview_shape sample_metadata_json (PyList [PyInt 17; PyInt 3])).
  reflexivity.
Defined.


(** ** Series fetcher *)

Section TimeseriesFacts.

Variable build_table : pyval -> Z -> Z -> result SeriesTable.

Implicit Types (d acc : gmap Z SeriesTable) (ids : list pyval).

Lemma fill_dict_other (limit offset : Z) ids acc d (k : Z) :
  fill_dict build_table limit offset acc ids = Return d ->
  k ∉ map key_of ids -> d !! k = acc !! k.
Proof.
  revert acc. induction ids as [|ID ids IH]; intros acc; simpl.
  - now intros [= <-].
  - destruct (build_table ID limit offset) as [t|e|]; try discriminate.
    cbn [mbind result_bind]. intros Hd Hk.
    apply not_elem_of_cons in Hk as [Hne Hk].
    rewrite (IH _ Hd Hk). now rewrite lookup_insert_ne.
Qed.

Lemma fill_dict_dom (limit offset : Z) ids acc d :
  fill_dict build_table limit offset acc ids = Return d ->
  dom d = dom acc ∪ list_to_set (map key_of ids).
Proof.
  revert acc. induction ids as [|ID ids IH]; intros acc; simpl.
  - intros [= <-]. set_solver.
  - destruct (build_table ID limit offset) as [t|e|]; try discriminate.
    cbn [mbind result_bind]. intros Hd.
    rewrite (IH _ Hd), dom_insert_L. set_solver.
Qed.

Lemma fill_dict_built (limit offset : Z) ids acc d :
  fill_dict build_table limit offset acc ids = Return d ->
  Forall (fun ID => exists t, build_table ID limit offset = Return t) ids.
Proof.
  revert acc. induction ids as [|ID ids IH]; intros acc; simpl; [constructor|].
  destruct (build_table ID limit offset) as [t|e|] eqn:Ht; try discriminate.
  cbn [mbind result_bind]. intros Hd.
  constructor; [now exists t | eapply IH, Hd].
Qed.

Lemma fill_dict_origin (limit offset : Z) ids acc d (k : Z) (t : SeriesTable) :
  fill_dict build_table limit offset acc ids = Return d ->
  d !! k = Some t ->
  acc !! k = Some t \/
  exists ID, ID ∈ ids /\ key_of ID = k /\ build_table ID limit offset = Return t.
Proof.
  revert acc. induction ids as [|ID ids IH]; intros acc; simpl.
  - intros [= <-] Hk. now left.
  - destruct (build_table ID limit offset) as [t'|e|] eqn:Ht; try discriminate.
    cbn [mbind result_bind]. intros Hd Hk.
    destruct (IH _ Hd Hk) as [Hacc|(ID' & Hin & Hkey & Hb)].
    + destruct (decide (key_of ID = k)) as [Heq|Hne].
      * rewrite Heq, lookup_insert_eq in Hacc. injection Hacc as ->.
        right. exists ID. split; [left|]. now split.
      * rewrite lookup_insert_ne in Hacc by assumption. now left.
    + right. exists ID'. split; [now right|]. now split.
Qed.

Lemma fill_dict_distinct (limit offset : Z) ids acc d :
  fill_dict build_table limit offset acc ids = Return d ->
  NoDup (map key_of ids) ->
  forall ID, ID ∈ ids ->
    exists t, build_table ID limit offset = Return t /\ d !! key_of ID = Some t.
Proof.
  revert acc. induction ids as [|ID ids IH]; intros acc; simpl.
  - intros _ _ ID HID. now apply elem_of_nil in HID.
  - destruct (build_table ID limit offset) as [t|e|] eqn:Ht; try discriminate.
    cbn [mbind result_bind]. intros Hd Hnd ID' HID'.
    apply NoDup_cons in Hnd as [Hfresh Hnd].
    apply elem_of_cons in HID' as [->|HID'].
    + exists t. split; [exact Ht|].
      rewrite (fill_dict_other _ _ _ _ _ _ Hd Hfresh). apply lookup_insert_eq.
    + now apply (IH _ Hd Hnd).
Qed.

(** The call reduces to [fill_dict] over the requested identifiers. *)
Lemma get_timeseries_fill (resource_ids limit offset : pyval) d :
  get_timeseries build_table resource_ids limit offset = Return d ->
  exists lim off, limit = PyInt lim /\ offset = PyInt off /\
    fill_dict build_table lim off ∅ (requested resource_ids) = Return d.
Proof.
  unfold get_timeseries. intros Hd.
  destruct (check_resource_ids resource_ids) as [[]|e|]; try discriminate.
  cbn [mbind result_bind] in Hd.
  destruct limit as [| |lim| | |]; try discriminate.
  destruct offset as [| |off| | |]; try discriminate.
  exists lim, off. repeat split.
  destruct resource_ids; try discriminate; exact Hd.
Qed.

Lemma timeseries_entries (resource_ids limit offset : pyval)
    (d : gmap Z SeriesTable) :
  get_timeseries build_table resource_ids limit offset = Return d ->
  exists lim off, limit = PyInt lim /\ offset = PyInt off /\
    dom d = list_to_set (map key_of (requested resource_ids)) /\
    (forall k t, d !! k = Some t ->
       exists ID, ID ∈ requested resource_ids /\ key_of ID = k /\
                  build_table ID lim off = Return t) /\
    Forall (fun ID => exists t, build_table ID lim off = Return t)
      (requested resource_ids) /\
    (NoDup (map key_of (requested resource_ids)) ->
       size d = length (requested resource_ids) /\
       forall ID, ID ∈ requested resource_ids ->
         exists t, build_table ID lim off = Return t /\ d !! key_of ID = Some t).
Proof.
  intros Hd.
  destruct (get_timeseries_fill _ _ _ _ Hd) as (lim & off & -> & -> & Hfill).
  exists lim, off. split; [reflexivity|]. split; [reflexivity|].
  pose proof (fill_dict_dom _ _ _ _ _ Hfill) as Hdom.
  rewrite dom_empty_L, (left_id_L ∅ (∪)) in Hdom.
  split; [exact Hdom|]. split; [|split].
  - intros k t Hk.
    destruct (fill_dict_origin _ _ _ _ _ _ _ Hfill Hk) as [Hacc|H]; [|exact H].
    rewrite lookup_empty in Hacc. discriminate.
  - eapply fill_dict_built, Hfill.
  - intros Hnd. split.
    + rewrite <- size_dom, Hdom, size_list_to_set by assumption.
      apply length_map.
    + eapply fill_dict_distinct; eassumption.
Qed.

(** X11. The mapping the fetcher returns has the requested identifiers as
    its keys and no other ([True] counting as 1 and [False] as 0); every
    table in it is the table built for an identifier with that key; every
    requested table was built, none is missing; and for identifiers with
    distinct keys the mapping has one entry per identifier, each holding
    the table built for it. *)
Theorem X11_timeseries_entries (resource_ids limit offset : pyval)
    (d : gmap Z SeriesTable) :
  get_timeseries build_table resource_ids limit offset = Return d ->
  exists lim off, limit = PyInt lim /\ offset = PyInt off /\
    dom d = list_to_set (map key_of (requested resource_ids)) /\
    (forall k t, d !! k = Some t ->
       exists ID, ID ∈ requested resource_ids /\ key_of ID = k /\
                  build_table ID lim off = Return t) /\
    Forall (fun ID => exists t, build_table ID lim off = Return t)
      (requested resource_ids) /\
    (NoDup (map key_of (requested resource_ids)) ->
       size d = length (requested resource_ids) /\
       forall ID, ID ∈ requested resource_ids ->
         exists t, build_table ID lim off = Return t /\ d !! key_of ID = Some t).
Proof. exact (timeseries_entries resource_ids limit offset d). Qed.

End TimeseriesFacts.

Lemma X11_timeseries_entries_witness :
  exists d,
    get_timeseries sample_build_table (PyList [PyInt 5; PyInt 8]) (PyInt 10000)
      (PyInt 0) = Return d /\
    dom d = list_to_set (map key_of (requested (PyList [PyInt 5; PyInt 8]))).
Proof.
  eexists. split; [reflexivity|].
  destruct (X11_timeseries_entries sample_build_table
              (PyList [PyInt 5; PyInt 8]) (PyInt 10000) (PyInt 0) _ eq_refl)
    as (lim & off & _ & _ & Hdom & _).
  exact Hdom.
Defined.

(** A boolean in the list is fetched under its own name and stored under
    the key of the integer it equals. *)
Example timeseries_true_and_one :
  size <$> get_timeseries sample_build_table (PyList [PyBool true; PyInt 1])
             (PyInt 10000) (PyInt 0)
  = Return 1%nat.
Proof. reflexivity. Qed.

(** ** Session construction, further *)

Section Construction.

Variable json : directory_json.
Variable metadata_json : pyval -> option (list MetadataRecord).
Variable build_table : pyval -> Z -> Z -> result SeriesTable.

Lemma key_of_ints (l : list Z) : map key_of (map PyInt l) = l.
Proof. induction l as [|z l IH]; simpl; [reflexivity | now rewrite IH]. Qed.

(** A constructed session comes from a resolved list that is not empty. *)
Lemma init_stages (keyphrases match_all : pyval) (s : Session) :
  timeseries_search_init json metadata_json build_table keyphrases match_all
    = Return s ->
  exists l,
    l <> [] /\
    get_resource_id json keyphrases match_all = Return (Some l) /\
    get_overview metadata_json (PyList (map PyInt l)) = Return (overview s) /\
    get_timeseries build_table (PyList (map PyInt l)) (PyInt 10000) (PyInt 0)
      = Return (timeseries s) /\
    resource_ids s = l.
Proof.
  unfold timeseries_search_init. intros Hs.
  destruct (get_resource_id json keyphrases match_all) as [[l|]|e|]; try discriminate.
  cbn [mbind result_bind ids_value] in Hs.
  destruct (get_overview metadata_json (PyList (map PyInt l))) as [ov|e|] eqn:Hov;
    try discriminate.
  cbn [mbind result_bind] in Hs.
  destruct (get_timeseries build_table (PyList (map PyInt l)) (PyInt 10000) (PyInt 0))
    as [ts|e|] eqn:Hts; try discriminate.
  injection Hs as <-. exists l. repeat split; try assumption.
  intros ->. discriminate Hov.
Qed.

Lemma constructed_session_shape (keyphrases match_all : pyval) (s : Session) :
  timeseries_search_init json metadata_json build_table keyphrases match_all
    = Return s ->
  resource_ids s <> [] /\
  (exists dir, json = Some dir /\ resource_ids s `sublist_of` map entry_id dir) /\
  dom (timeseries s) = list_to_set (resource_ids s) /\
  overview s <> [] /\
  map fst (overview s) = seq 0 (length (overview s)) /\
  Sorted Z.le (map row_id (overview s)).
Proof.
  intros Hs. destruct (init_stages _ _ _ Hs) as (l & Hne & Hres & Hov & Hts & ->).
  split; [exact Hne|]. split; [|split].
  - destruct (resolver_returns_sublist _ _ _ _ Hres) as (dir & Hjson & Hsub & _).
    now exists dir.
  - destruct (timeseries_entries _ _ _ _ _ Hts)
      as (lim & off & _ & _ & Hdom & _).
    cbn [requested] in Hdom. now rewrite key_of_ints in Hdom.
  - now apply (overview_shape metadata_json _ _ Hov).
Qed.

(** X12. A session that was constructed holds at least one identifier; its
    identifiers are taken in order from the directory; the keys of its
    series are exactly its identifiers; and its overview has at least one
    row, the index 0, 1, 2, ... and ascending identifiers. An empty session
    is never constructed. *)
Theorem X12_constructed_session_shape (keyphrases match_all : pyval) (s : Session) :
  timeseries_search_init json metadata_json build_table keyphrases match_all
    = Return s ->
  resource_ids s <> [] /\
  (exists dir, json = Some dir /\ resource_ids s `sublist_of` map entry_id dir) /\
  dom (timeseries s) = list_to_set (resource_ids s) /\
  overview s <> [] /\
  map fst (overview s) = seq 0 (length (overview s)) /\
  Sorted Z.le (map row_id (overview s)).
Proof. exact (constructed_session_shape keyphrases match_all s). Qed.



End Construction.

Lemma X12_constructed_session_shape_witness :
  exists s,
    timeseries_search_init (Some scenario_directory) sample_metadata_json
      sample_build_table (PyStr "price") (PyBool false) = Return s /\
    resource_ids s <> [] /\
    dom (timeseries s) = list_to_set (resource_ids s).
Proof.
  eexists. split; [reflexivity|].
  destruct (X12_constructed_session_shape (Some scenario_directory)
              sample_metadata_json sample_build_table (PyStr "price")
              (PyBool false) _ eq_refl) as (Hne & _ & Hdom & _).
  split; assumption.
Defined.



(** ** Filter, further *)

Lemma year_mask_readable (y : Z) (df : DataFrame) (mask : list bool) :
  year_mask y df = Return mask -> periods_readable df.
Proof.
  revert mask. induction df as [|r df IH]; intros mask; simpl; [constructor|].
  destruct (leading_year (ov_startPeriod r.2)) as [v|e|] eqn:Hv; try discriminate.
  cbn [mbind result_bind].
  destruct (year_mask y df) as [mask'|e|]; try discriminate.
  intros _. constructor; [now exists v | now apply (IH mask')].
Qed.

Lemma check_filter_arguments_passes (frequency start_year inplace : pyval) :
  check_filter_arguments frequency start_year inplace = Return tt ->
  ((exists f, frequency = PyStr f) \/ (exists fl, frequency = PyList (map PyStr fl))) /\
  start_year_accepted start_year /\
  exists b, inplace = PyBool b.
Proof.
  unfold start_year_accepted, check_filter_arguments. intros H.
  assert (Hf : (exists f, frequency = PyStr f) \/
               (exists fl, frequency = PyList (map PyStr fl))).
  { destruct frequency as [| | |f|l|]; try discriminate H.
    - left. now exists f.
    - right. destruct (forallb isinstance_str l) eqn:Hl; [|discriminate H].
      apply forallb_isinstance_str_iff in Hl as [fl ->]. now exists fl. }
  split; [exact Hf|].
  assert (Hfirst : match frequency with
                   | PyStr _ => Return tt
                   | PyList l => raise_if (negb (forallb isinstance_str l)) TypeError
                   | _ => Raise TypeError
                   end = Return tt).
  { destruct Hf as [[f ->]|[fl ->]]; [reflexivity|].
    now rewrite forallb_isinstance_str. }
  rewrite Hfirst in H. cbn [forallb negb raise_if mbind result_bind].
  cbn [mbind result_bind] in H.
  destruct start_year as [| |z| | |]; try discriminate H.
  - split; [reflexivity|].
    destruct inplace; try discriminate H. now eexists.
  - destruct (raise_if (negb (String.length (Num.str_int z) =? 4)%nat) TypeError)
      as [[]|e|]; try discriminate H.
    split; [reflexivity|].
    destruct inplace; try discriminate H. now eexists.
Qed.

Lemma all_not_accepted (fl : list string) :
  forallb (fun freq => bool_decide (freq ∈ frequencies)) fl = true ->
  bool_decide ("all" ∈ fl) = false.
Proof.
  intros Hall. apply bool_decide_eq_false. intros Hin.
  rewrite forallb_forall in Hall.
  specialize (Hall _ (proj1 (list_elem_of_In _ _) Hin)).
  vm_compute in Hall. discriminate Hall.
Qed.

Lemma rows_kept (self : Session) (frequency start_year inplace : pyval)
    (F : DataFrame) :
  filtered_overview self frequency start_year inplace = Return F ->
  exists fl,
    frequency = PyList (map PyStr fl) /\
    Forall (fun v => v ∈ frequencies) fl /\
    (start_year = PyNone -> F = rows_of_frequency fl (overview self)) /\
    (forall y, start_year = PyInt y ->
       F = List.filter (year_ok y) (rows_of_frequency fl (overview self)) /\
       rows_of_frequency fl (overview self) <> [] /\
       periods_readable (rows_of_frequency fl (overview self))).
Proof.
  unfold filtered_overview. intros HF.
  destruct (check_filter_arguments frequency start_year inplace) as [[]|e|] eqn:Hc;
    try discriminate HF.
  cbn [mbind result_bind] in HF.
  destruct (check_filter_arguments_passes _ _ _ Hc) as ([[f ->]|[fl ->]] & Hy & _);
    [discriminate HF|].
  exists fl. split; [reflexivity|].
  rewrite filter_frequency_list in HF.
  destruct (forallb (fun freq => bool_decide (freq ∈ frequencies)) fl) eqn:Hall;
    [|discriminate HF].
  rewrite (all_not_accepted _ Hall) in HF. cbn [negb mbind result_bind] in HF.
  fold (rows_of_frequency fl (overview self)) in HF.
  split.
  { apply Forall_forall. intros v Hv. rewrite forallb_forall in Hall.
    specialize (Hall v (proj1 (list_elem_of_In _ _) Hv)).
    now apply bool_decide_eq_true in Hall. }
  split.
  - intros ->. now injection HF as <-.
  - intros y ->. apply start_year_accepted_int in Hy.
    unfold filter_start_year in HF.
    assert (Hnz : truthy (PyInt y) = true).
    { simpl. destruct (Z.eqb_spec y 0); [lia | reflexivity]. }
    rewrite Hnz in HF.
    destruct (year_mask y (rows_of_frequency fl (overview self))) as [mask|e|] eqn:Hm;
      try discriminate HF.
    cbn [mbind result_bind] in HF.
    destruct (year_mask_select _ _ _ Hm) as [Hmask Hsel].
    destruct mask as [|b mask]; [discriminate HF|].
    injection HF as <-. split; [exact Hsel|]. split.
    + intros Hnil. rewrite Hnil in Hmask. discriminate Hmask.
    + eapply year_mask_readable, Hm.
Qed.

(** X14. When the two filters of [filter_datasets] return, the frequency
    was a list of strings, each one of the accepted values, and the rows
    kept are, without a start year, the rows whose frequency in lower case
    is in the list; with the start year [y], those of them whose period
    begins with a number that is at least [y], and then there was at least
    one row of these frequencies and every such row has a readable period.
    The whole overview is never kept through the value "all". *)
Theorem X14_rows_kept (self : Session) (frequency start_year inplace : pyval)
    (F : DataFrame) :
  filtered_overview self frequency start_year inplace = Return F ->
  exists fl,
    frequency = PyList (map PyStr fl) /\
    Forall (fun v => v ∈ frequencies) fl /\
    (start_year = PyNone -> F = rows_of_frequency fl (overview self)) /\
    (forall y, start_year = PyInt y ->
       F = List.filter (year_ok y) (rows_of_frequency fl (overview self)) /\
       rows_of_frequency fl (overview self) <> [] /\
       periods_readable (rows_of_frequency fl (overview self))).
Proof. exact (rows_kept self frequency start_year inplace F). Qed.

Lemma X14_rows_kept_witness :
  exists F,
    filtered_overview sample_session (PyList [PyStr "quarterly"]) (PyInt 2000)
      (PyBool true) = Return F /\
    exists fl,
      PyList [PyStr "quarterly"] = PyList (map PyStr fl) /\
      Forall (fun v => v ∈ frequencies) fl /\
      F = List.filter (year_ok 2000) (rows_of_frequency fl (overview sample_session)).
Proof.
  eexists. split; [reflexivity|].
  destruct (X14_rows_kept sample_session (PyList [PyStr "quarterly"]) (PyInt 2000)
              (PyBool true) _ eq_refl) as (fl & Hfl & Hacc & _ & Hyear).
  exists fl. split; [exact Hfl|]. split; [exact Hacc|].
  now destruct (Hyear 2000 eq_refl) as [HF _].
Defined.

Lemma filter_filter {A : Type} (f g : A -> bool) (l : list A) :
  List.filter f (List.filter g l) = List.filter (fun x => g x && f x) l.
Proof.
  induction l as [|x l IH]; simpl; [reflexivity|].
  destruct (g x); simpl; [destruct (f x)|]; now rewrite IH.
Qed.

Lemma filter_sublist {A : Type} (f : A -> bool) (l : list A) :
  List.filter f l `sublist_of` l.
Proof.
  induction l as [|x l IH]; simpl; [constructor|].
  destruct (f x); [now apply sublist_skip | now apply sublist_cons].
Qed.

(** The rows kept are the rows of the overview that pass one test. *)
Lemma filtered_overview_is_filter (self : Session)
    (frequency start_year inplace : pyval) (F : DataFrame) :
  filtered_overview self frequency start_year inplace = Return F ->
  exists Q, F = List.filter Q (overview self).
Proof.
  intros HF. destruct (rows_kept _ _ _ _ _ HF) as (fl & _ & _ & Hnone & Hyear).
  unfold filtered_overview in HF.
  destruct (check_filter_arguments frequency start_year inplace) as [[]|e|] eqn:Hc;
    try discriminate HF.
  destruct (check_filter_arguments_passes _ _ _ Hc) as (_ & Hy & _).
  unfold start_year_accepted, check_filter_arguments in Hy.
  cbn [forallb negb raise_if mbind result_bind] in Hy.
  destruct start_year as [| |y| | |]; try discriminate Hy.
  - eexists. now apply Hnone.
  - destruct (Hyear y eq_refl) as [-> _]. unfold rows_of_frequency.
    rewrite filter_filter. now eexists.
Qed.

(** With distinct identifiers, the rows whose identifier is among those of
    the rows that pass a test are the rows that pass it. *)
Lemma rows_isin_filter (Q : nat * OverviewRecord -> bool) (df : DataFrame) :
  NoDup (map row_id df) ->
  rows_isin (map row_id (List.filter Q df)) df = List.filter Q df.
Proof.
  unfold rows_isin. induction df as [|r df IH]; intros Hnd; [reflexivity|].
  simpl in Hnd. apply NoDup_cons in Hnd as [Hfresh Hnd].
  assert (Hnot : row_id r ∉ map row_id (List.filter Q df)).
  { intros Hin. apply Hfresh.
    apply list_elem_of_In, in_map_iff in Hin as (x & Hx & Hin).
    apply filter_In in Hin as [Hin _].
    apply list_elem_of_In, in_map_iff. now exists x. }
  simpl. destruct (Q r) eqn:HQ.
  - cbn [map List.filter]. rewrite bool_decide_eq_true_2 by left.
    f_equal. etransitivity; [|exact (IH Hnd)].
    apply filter_ext_in. intros x Hx.
    apply bool_decide_ext. rewrite elem_of_cons.
    split; [|now right]. intros [Heq|H]; [|exact H].
    exfalso. apply Hfresh. rewrite <- Heq.
    apply list_elem_of_In. now apply in_map.
  - cbn [List.filter]. rewrite bool_decide_eq_false_2 by exact Hnot.
    now apply IH.
Qed.

Lemma in_place_result (self : Session) (frequency start_year : pyval)
    (F : DataFrame) :
  filtered_overview self frequency start_year (PyBool true) = Return F ->
  (forall r, In r (overview self) -> is_Some (timeseries self !! row_id r)) ->
  exists s',
    filter_datasets self frequency start_year (PyBool true)
      = {| final := s'; displayed := [overview s']; value := Return None |} /\
    resource_ids s' = map row_id F /\
    overview s' = rows_isin (map row_id F) (overview self) /\
    (NoDup (map row_id (overview self)) -> overview s' = F) /\
    (forall k, timeseries s' !! k
               = if bool_decide (k ∈ map row_id F) then timeseries self !! k else None) /\
    session_consistent s'.
Proof.
  intros HF Hinv.
  destruct (filtered_overview_is_filter _ _ _ _ _ HF) as [Q HQ].
  destruct (restrict_dict_defined (timeseries self) (map row_id F)) as [d Hd].
  { intros k Hk. apply list_elem_of_In, in_map_iff in Hk as (r & <- & Hr).
    apply Hinv. eapply filtered_overview_rows; eassumption. }
  pose proof (restrict_dict_lookup _ _ _ Hd) as Hlook.
  exists {| resource_ids := map row_id F;
            overview := rows_isin (map row_id F) (overview self);
            timeseries := d |}.
  cbn [resource_ids overview timeseries].
  split; [|split; [reflexivity|split; [reflexivity|split; [|split; [exact Hlook|]]]]].
  - unfold filter_datasets. rewrite HF. cbn [resource_ids overview timeseries].
    rewrite Hd. cbn [resource_ids overview timeseries].
    now rewrite rows_isin_again.
  - intros Hnd. rewrite HQ. now apply rows_isin_filter.
  - split; cbn [resource_ids overview timeseries].
    + intros id. split.
      * intros Hid. pose proof Hid as Hid'.
        apply list_elem_of_In, in_map_iff in Hid as (r & <- & Hr).
        apply list_elem_of_In, in_map. unfold rows_isin. apply filter_In.
        split; [eapply filtered_overview_rows; eassumption|].
        now apply bool_decide_eq_true.
      * intros Hid. apply list_elem_of_In, in_map_iff in Hid as (r & <- & Hr).
        unfold rows_isin in Hr. apply filter_In in Hr as [_ Hr].
        now apply bool_decide_eq_true in Hr.
    + apply set_eq. intros k. rewrite elem_of_dom, elem_of_list_to_set, Hlook.
      destruct (bool_decide (k ∈ map row_id F)) eqn:Hk.
      * apply bool_decide_eq_true in Hk. split; [now intros _|]. intros _.
        apply list_elem_of_In, in_map_iff in Hk as (r & <- & Hr).
        apply Hinv. eapply filtered_overview_rows; eassumption.
      * apply bool_decide_eq_false in Hk. split; [|now intros H].
        intros [t Ht]. discriminate Ht.
Qed.

(** X15. An in-place call whose filters return the rows [F], in a session
    where every row of the overview has its series, returns nothing,
    displays the new overview, and leaves a consistent session: the
    identifiers are those of [F], in the order of [F]; the overview is made
    of the rows of the old overview with such an identifier, and is [F]
    itself when the old overview has no identifier twice; the series are the
    old series of these identifiers and of no other. *)
Theorem X15_in_place_result (self : Session) (frequency start_year : pyval)
    (F : DataFrame) :
  filtered_overview self frequency start_year (PyBool true) = Return F ->
  (forall r, In r (overview self) -> is_Some (timeseries self !! row_id r)) ->
  exists s',
    filter_datasets self frequency start_year (PyBool true)
      = {| final := s'; displayed := [overview s']; value := Return None |} /\
    resource_ids s' = map row_id F /\
    overview s' = rows_isin (map row_id F) (overview self) /\
    (NoDup (map row_id (overview self)) -> overview s' = F) /\
    (forall k, timeseries s' !! k
               = if bool_decide (k ∈ map row_id F) then timeseries self !! k else None) /\
    session_consistent s'.
Proof. exact (in_place_result self frequency start_year F). Qed.

Lemma X15_in_place_result_witness :
  exists F s',
    filtered_overview sample_session (PyList [PyStr "quarterly"]) PyNone
      (PyBool true) = Return F /\
    (forall r, In r (overview sample_session) ->
       is_Some (timeseries sample_session !! row_id r)) /\
    filter_datasets sample_session (PyList [PyStr "quarterly"]) PyNone (PyBool true)
      = {| final := s'; displayed := [overview s']; value := Return None |} /\
    resource_ids s' = map row_id F.
Proof.
  assert (Hinv : forall r, In r (overview sample_session) ->
                   is_Some (timeseries sample_session !! row_id r)).
  { intros r [<-|[<-|[<-|[]]]]; vm_compute; eauto. }
  destruct (X15_in_place_result sample_session (PyList [PyStr "quarterly"]) PyNone
              _ eq_refl Hinv) as (s' & Hcall & Hids & _).
  eexists _, s'. split; [reflexivity|]. split; [exact Hinv|].
  split; [exact Hcall | exact Hids].
Defined.

(** X16. The in-place branch is not atomic: when the filters return the
    rows [F] and one of them has no series in the session, the call raises
    [KeyError] after it has already replaced the identifiers and the
    overview; the series are the old ones and nothing is displayed. *)
Theorem X16_in_place_partial_update (self : Session) (frequency start_year : pyval)
    (F : DataFrame) :
  filtered_overview self frequency start_year (PyBool true) = Return F ->
  (exists r, In r F /\ timeseries self !! row_id r = None) ->
  filter_datasets self frequency start_year (PyBool true)
  = {| final := {| resource_ids := map row_id F;
                   overview := rows_isin (map row_id F) (overview self);
                   timeseries := timeseries self |};
       displayed := [];
       value := Raise KeyError |}.
Proof.
  intros HF (r & Hr & Hnone).
  unfold filter_datasets. rewrite HF. cbn [resource_ids overview timeseries].
  destruct (restrict_dict (timeseries self) (map row_id F)) as [d|] eqn:Hd;
    [|reflexivity].
  exfalso.
  destruct (restrict_dict_keys _ _ _ Hd (row_id r)) as [t Ht].
  - apply list_elem_of_In. now apply in_map.
  - congruence.
Qed.

Lemma X16_in_place_partial_update_witness :
  exists F,
    filtered_overview stale_session (PyList [PyStr "quarterly"]) PyNone (PyBool true)
      = Return F /\
    (exists r, In r F /\ timeseries stale_session !! row_id r = None) /\
    resource_ids
      (final (filter_datasets stale_session (PyList [PyStr "quarterly"]) PyNone
                (PyBool true))) = [1; 3] /\
    value (filter_datasets stale_session (PyList [PyStr "quarterly"]) PyNone
             (PyBool true)) = Raise KeyError.
Proof.
  assert (Hmiss : exists r,
            In r [sample_row 0 1 "Quarterly" "1975 1Q";
                  sample_row 2 3 "Quarterly" "2005 1Q"] /\
            timeseries stale_session !! row_id r = None).
  { exists (sample_row 2 3 "Quarterly" "2005 1Q"). split; [right; left|]; reflexivity. }
  eexists. split; [reflexivity|]. split; [exact Hmiss|].
  rewrite (X16_in_place_partial_update stale_session (PyList [PyStr "quarterly"])
             PyNone _ eq_refl Hmiss).
  split; reflexivity.
Defined.

Lemma restrict_dict_subseteq (ts d : gmap Z SeriesTable) (ids : list Z) :
  restrict_dict ts ids = Some d -> d ⊆ ts.
Proof.
  intros Hd. apply map_subseteq_spec. intros k t Hk.
  rewrite (restrict_dict_lookup _ _ _ Hd) in Hk.
  destruct (bool_decide (k ∈ ids)); [exact Hk | discriminate Hk].
Qed.

(** X17. No call adds anything to a session: after the call the overview
    is made of rows of the old overview in their old order and with their
    old index labels, the series are among the old series, and every
    identifier is an old one or the identifier of a row of the old
    overview. *)
Theorem X17_filter_never_adds (self : Session) (frequency start_year inplace : pyval) :
  let s' := final (filter_datasets self frequency start_year inplace) in
  overview s' `sublist_of` overview self /\
  timeseries s' ⊆ timeseries self /\
  (forall id, id ∈ resource_ids s' ->
     id ∈ resource_ids self \/ id ∈ map row_id (overview self)).
Proof.
  cbn zeta. rewrite final_filter_datasets.
  destruct (filtered_overview self frequency start_year inplace) as [F|e|] eqn:HF;
    try (split; [reflexivity | split; [reflexivity | now left]]).
  destruct inplace as [|[]| | | |];
    try (split; [reflexivity | split; [reflexivity | now left]]).
  cbn [resource_ids overview timeseries]. split; [|split].
  - apply filter_sublist.
  - destruct (restrict_dict (timeseries self) (map row_id F)) as [d|] eqn:Hd;
      unfold default; cbn [from_option id]; [|reflexivity].
    eapply restrict_dict_subseteq, Hd.
  - intros id Hid. right.
    apply list_elem_of_In, in_map_iff in Hid as (r & <- & Hr).
    apply list_elem_of_In, in_map. eapply filtered_overview_rows; eassumption.
Qed.

(** X18. Only [KeyError] can come with an effect: a call that raises any
    other exception, from the checks of the arguments, the assertion, the
    unassigned name or the reading of a period, leaves the session as it
    was and displays nothing. *)
Theorem X18_errors_without_effect (self : Session)
    (frequency start_year inplace : pyval) (e : exn) :
  value (filter_datasets self frequency start_year inplace) = Raise e ->
  e <> KeyError ->
  filter_datasets self frequency start_year inplace
  = {| final := self; displayed := []; value := Raise e |}.
Proof.
  unfold filter_datasets.
  destruct (filtered_overview self frequency start_year inplace) as [F|e'|];
    cbn [value].
  - destruct inplace as [|[]| | | |]; cbn [resource_ids overview timeseries];
      destruct (restrict_dict (timeseries self) (map row_id F)); cbn [value];
      intros He Hne; try discriminate He; injection He as <-; now contradict Hne.
  - now intros [= <-] _.
  - discriminate.
Qed.

Lemma X18_errors_without_effect_witness :
  value (filter_datasets sample_session (PyList [PyStr "weekly"]) (PyInt 2000)
           (PyBool true)) = Raise AssertionError /\
  AssertionError <> KeyError /\
  final (filter_datasets sample_session (PyList [PyStr "weekly"]) (PyInt 2000)
           (PyBool true)) = sample_session.
Proof.
  split; [reflexivity|]. split; [discriminate|].
  rewrite (X18_errors_without_effect sample_session (PyList [PyStr "weekly"])
             (PyInt 2000) (PyBool true) AssertionError eq_refl ltac:(discriminate)).
  reflexivity.
Defined.

(** ** Filter: after construction, and one call after another *)

Lemma filtered_overview_list_none (self : Session) (fl : list string) (b : bool) :
  Forall (fun v => v ∈ frequencies) fl ->
  filtered_overview self (PyList (map PyStr fl)) PyNone (PyBool b)
  = Return (rows_of_frequency fl (overview self)).
Proof.
  intros Hall. rewrite filtered_overview_without_year by assumption.
  assert (Hok : forallb (fun freq => bool_decide (freq ∈ frequencies)) fl = true).
  { apply forallb_forall. intros v Hv. apply bool_decide_eq_true.
    rewrite Forall_forall in Hall. apply Hall. now apply list_elem_of_In. }
  now rewrite (all_not_accepted _ Hok).
Qed.



Lemma session_eq (a b : Session) :
  resource_ids a = resource_ids b -> overview a = overview b ->
  timeseries a = timeseries b -> a = b.
Proof. destruct a, b; simpl; intros -> -> ->; reflexivity. Qed.

(** One in-place call on a session with distinct identifiers whose rows
    all have their series. *)
Lemma filter_in_place_step (fl : list string) (s : Session) :
  NoDup (map row_id (overview s)) ->
  (forall r, In r (overview s) -> is_Some (timeseries s !! row_id r)) ->
  Forall (fun v => v ∈ frequencies) fl ->
  resource_ids (filter_in_place fl s) = map row_id (rows_of_frequency fl (overview s)) /\
  overview (filter_in_place fl s) = rows_of_frequency fl (overview s) /\
  (forall k, timeseries (filter_in_place fl s) !! k
             = if bool_decide (k ∈ map row_id (rows_of_frequency fl (overview s)))
               then timeseries s !! k else None).
Proof.
  intros Hnd Hinv Hfl.
  destruct (in_place_result s _ _ _ (filtered_overview_list_none s fl true Hfl) Hinv)
    as (s' & Hcall & Hids & _ & Hov & Hts & _).
  unfold filter_in_place. rewrite Hcall. cbn [final].
  split; [exact Hids|]. split; [now apply Hov | exact Hts].
Qed.

(** X20. Two in-place calls with lists of accepted frequencies and no
    start year can be made in either order: on a session whose overview has
    no identifier twice and whose rows all have their series, both orders
    leave the same session, and its overview holds the rows whose frequency
    is in both lists. *)
Theorem X20_in_place_calls_commute (s : Session) (fl1 fl2 : list string) :
  NoDup (map row_id (overview s)) ->
  (forall r, In r (overview s) -> is_Some (timeseries s !! row_id r)) ->
  Forall (fun v => v ∈ frequencies) fl1 ->
  Forall (fun v => v ∈ frequencies) fl2 ->
  filter_in_place fl2 (filter_in_place fl1 s)
    = filter_in_place fl1 (filter_in_place fl2 s) /\
  overview (filter_in_place fl2 (filter_in_place fl1 s))
    = rows_of_frequency fl2 (rows_of_frequency fl1 (overview s)).
Proof.
  intros Hnd Hinv Hfl1 Hfl2.
  assert (Hstep : forall fl fl', Forall (fun v => v ∈ frequencies) fl ->
            Forall (fun v => v ∈ frequencies) fl' ->
            let I := map row_id (rows_of_frequency fl' (rows_of_frequency fl (overview s))) in
            resource_ids (filter_in_place fl' (filter_in_place fl s)) = I /\
            overview (filter_in_place fl' (filter_in_place fl s))
              = rows_of_frequency fl' (rows_of_frequency fl (overview s)) /\
            forall k, timeseries (filter_in_place fl' (filter_in_place fl s)) !! k
                      = if bool_decide (k ∈ I) then timeseries s !! k else None).
  { intros fl fl' Hfl Hfl' I.
    destruct (filter_in_place_step fl s Hnd Hinv Hfl) as (Hids & Hov & Hts).
    assert (Hnd' : NoDup (map row_id (overview (filter_in_place fl s)))).
    { rewrite Hov. eapply sublist_NoDup; [exact Hnd|].
      apply (fmap_sublist row_id), filter_sublist. }
    assert (Hinv' : forall r, In r (overview (filter_in_place fl s)) ->
                      is_Some (timeseries (filter_in_place fl s) !! row_id r)).
    { intros r Hr. rewrite Hov in Hr. rewrite Hts.
      rewrite bool_decide_eq_true_2
        by (apply list_elem_of_In; now apply in_map).
      apply Hinv. unfold rows_of_frequency in Hr. now apply filter_In in Hr as [Hr _]. }
    destruct (filter_in_place_step fl' _ Hnd' Hinv' Hfl') as (Hids' & Hov' & Hts').
    rewrite Hov in Hids', Hov', Hts'.
    split; [exact Hids'|]. split; [exact Hov'|].
    intros k. rewrite Hts', Hts. subst I.
    destruct (bool_decide (k ∈ map row_id
                (rows_of_frequency fl' (rows_of_frequency fl (overview s))))) eqn:Hk;
      [|reflexivity].
    apply bool_decide_eq_true in Hk.
    rewrite bool_decide_eq_true_2; [reflexivity|].
    apply list_elem_of_In, in_map_iff in Hk as (r & <- & Hr).
    apply list_elem_of_In, in_map.
    unfold rows_of_frequency in Hr at 1. now apply filter_In in Hr as [Hr _]. }
  destruct (Hstep fl1 fl2 Hfl1 Hfl2) as (Hids12 & Hov12 & Hts12).
  destruct (Hstep fl2 fl1 Hfl2 Hfl1) as (Hids21 & Hov21 & Hts21).
  assert (Hcomm : rows_of_frequency fl2 (rows_of_frequency fl1 (overview s))
                  = rows_of_frequency fl1 (rows_of_frequency fl2 (overview s))).
  { unfold rows_of_frequency. apply filter_comm. }
  split; [|exact Hov12].
  apply session_eq.
  - rewrite Hids12, Hids21. cbn zeta. now rewrite Hcomm.
  - now rewrite Hov12, Hov21.
  - apply map_eq. intros k. rewrite Hts12, Hts21. cbn zeta. now rewrite Hcomm.
Qed.

Lemma X20_in_place_calls_commute_witness :
  NoDup (map row_id (overview sample_session)) /\
  filter_in_place ["annual"; "quarterly"] (filter_in_place ["quarterly"] sample_session)
  = filter_in_place ["quarterly"] (filter_in_place ["annual"; "quarterly"] sample_session).
Proof.
  assert (Hnd : NoDup (map row_id (overview sample_session))).
  { apply NoDup_ListNoDup. repeat constructor; simpl; intuition discriminate. }
  assert (Hinv : forall r, In r (overview sample_session) ->
                   is_Some (timeseries sample_session !! row_id r)).
  { intros r [<-|[<-|[<-|[]]]]; vm_compute; eauto. }
  split; [exact Hnd|].
  apply (X20_in_place_calls_commute sample_session ["quarterly"] ["annual"; "quarterly"]
           Hnd Hinv); repeat constructor.
Defined.
